(** * anymcp-io: the catalog extractor and assembler

    A shallow embedding of [src/_data/servers.js] (directory scan,
    front-matter parser, tool scanner, display-code derivation) and of
    [src/_data/serversArray.js] (the list assembler), with the properties
    the specification states about them.

    Conventions of the embedding:
    - a JavaScript string is a [string] whose characters are its code
      units; code units above 255 are outside the model;
    - a JavaScript value is a term of [value]; an object is its list of own
      properties in the order [Object.entries] reports them;
    - Node's [fs] and [path] modules, the [yaml] package and the clock are
      the environment ([Env]): a call that can throw returns a [result];
    - console output is not modelled. *)

From Stdlib Require Import Bool List Arith ZArith NArith Lia Permutation.
From Stdlib Require Import Ascii String DecimalString.
Import ListNotations.
Local Open Scope string_scope.
Local Open Scope list_scope.

(** ** String primitives *)

Module Str.

(** The double quote, written by its code so that no literal has to
    escape it. *)
Definition dquote : ascii := ascii_of_nat 34.
Definition squote : ascii := ascii_of_nat 39.
Definition LF : ascii := ascii_of_nat 10.

Definition single (c : ascii) : string := String c "".

(** WhiteSpace and LineTerminator code units below 256: TAB, LF, VT, FF,
    CR, SP and NBSP.  This is the set [trim] strips and [\s] matches. *)
Definition isWhiteSpace (c : ascii) : bool :=
  existsb (Nat.eqb (nat_of_ascii c)) [9; 10; 11; 12; 13; 32; 160].

(** [\w] is [A-Za-z0-9_]. *)
Definition isWordChar (c : ascii) : bool :=
  let n := nat_of_ascii c in
  (((65 <=? n) && (n <=? 90)) || ((97 <=? n) && (n <=? 122))
   || ((48 <=? n) && (n <=? 57)) || (n =? 95))%nat.

Definition isEmpty (s : string) : bool :=
  match s with "" => true | _ => false end.

Fixpoint trimStart (s : string) : string :=
  match s with
  | "" => ""
  | String c s' => if isWhiteSpace c then trimStart s' else s
  end.

Fixpoint trimEnd (s : string) : string :=
  match s with
  | "" => ""
  | String c s' =>
      let t := trimEnd s' in
      if isWhiteSpace c && isEmpty t then "" else String c t
  end.

(** [s.trim()] *)
Definition trim (s : string) : string := trimEnd (trimStart s).

(** [stripPrefix p s] is the rest of [s] after a leading [p]. *)
Fixpoint stripPrefix (p s : string) : option string :=
  match p with
  | "" => Some s
  | String a p' =>
      match s with
      | "" => None
      | String b s' => if Ascii.eqb a b then stripPrefix p' s' else None
      end
  end.

(** [s.startsWith(p)] *)
Definition startsWith (p s : string) : bool :=
  match stripPrefix p s with Some _ => true | None => false end.

(** [s.includes(p)] *)
Fixpoint includes (p s : string) : bool :=
  startsWith p s
  || match s with "" => false | String _ s' => includes p s' end.

(** [s.substring(n)] *)
Fixpoint substringFrom (n : nat) (s : string) : string :=
  match n, s with
  | S n', String _ s' => substringFrom n' s'
  | _, _ => s
  end.

(** [s.split('\n')]: never empty, the empty string splits into one empty
    line. *)
Fixpoint splitLines (s : string) : list string :=
  match s with
  | "" => [""]
  | String c s' =>
      if Ascii.eqb c LF then "" :: splitLines s'
      else match splitLines s' with
           | l :: ls => String c l :: ls
           | [] => [single c]
           end
  end.

(** [lines.join('\n')] *)
Definition joinLines (lines : list string) : string :=
  String.concat (single LF) lines.

(** [s.replace(/pat/g, rep)] for a literal, non-empty pattern: matches are
    taken left to right and do not overlap; the scan resumes after each
    match.  The fuel bounds the number of scan steps. *)
Fixpoint replaceLoop (fuel : nat) (pat rep s : string) : string :=
  match fuel with
  | 0 => s
  | S fuel' =>
      match s with
      | "" => ""
      | String c s' =>
          match stripPrefix pat s with
          | Some rest => rep ++ replaceLoop fuel' pat rep rest
          | None => String c (replaceLoop fuel' pat rep s')
          end
      end
  end.

Definition replaceAll (pat rep s : string) : string :=
  replaceLoop (String.length s) pat rep s.

(** The longest prefix of [s] whose characters satisfy [f], and the rest. *)
Fixpoint span (f : ascii -> bool) (s : string) : string * string :=
  match s with
  | "" => ("", "")
  | String c s' =>
      if f c then let (a, b) := span f s' in (String c a, b) else ("", s)
  end.

(** [c] does not occur in [s]. *)
Fixpoint lacks (c : ascii) (s : string) : bool :=
  match s with
  | "" => true
  | String a s' => negb (Ascii.eqb a c) && lacks c s'
  end.

End Str.
Import Str.

(** ** Display code: entity decoding (servers.js, lines 183-189) *)

Definition decodeEntities (code : string) : string :=
  let code := replaceAll "&quot;" (single dquote) code in
  let code := replaceAll "&#39;" (single squote) code in
  let code := replaceAll "&lt;" "<" code in
  let code := replaceAll "&gt;" ">" code in
  replaceAll "&amp;" "&" code.

(** ** JavaScript values *)

Module Js.

#[local] Set Warnings "-register-all".

(** A value the YAML decoder can produce, or that the catalog stores.
    Numbers are the integers (the only numeric field is a download count)
    and NaN; fractions are outside the model, and an integer stands for
    the JavaScript number only while [safeInteger] holds of it.  An
    object is the list of its own enumerable properties in
    [Object.entries] order. *)
Inductive value : Type :=
| VUndefined
| VNull
| VBool (b : bool)
| VNum (n : Z)
| VNaN
| VStr (s : string)
| VArr (items : list value)
| VObj (props : list (string * value)).

Definition obj : Type := list (string * value).

(** ToBoolean *)
Definition truthy (v : value) : bool :=
  match v with
  | VUndefined | VNull | VNaN => false
  | VBool b => b
  | VNum n => negb (Z.eqb n 0)
  | VStr s => negb (isEmpty s)
  | VArr _ | VObj _ => true
  end.

(** [a || b] on values that are already computed. *)
Definition orElse (a b : value) : value := if truthy a then a else b.

Fixpoint lookup (k : string) (o : obj) : option value :=
  match o with
  | [] => None
  | (k', v) :: o' => if String.eqb k' k then Some v else lookup k o'
  end.

Definition hasProp (k : string) (o : obj) : bool :=
  match lookup k o with Some _ => true | None => false end.

(** [v.k] for the property names this program reads (none of them is
    [length], an index or a prototype member): a missing property, and
    any property of a non-object, is [undefined]. *)
Definition get (v : value) (k : string) : value :=
  match v with
  | VObj o => match lookup k o with Some x => x | None => VUndefined end
  | _ => VUndefined
  end.

(** [Array.isArray(v)] *)
Definition isArray (v : value) : bool :=
  match v with VArr _ => true | _ => false end.

(** [Number.isSafeInteger]: the integers up to 2^53 - 1 in magnitude.
    These are the integers a number holds exactly and prints digit by
    digit; beyond them Number::toString rounds, and from 10^21 on it
    switches to exponent form. *)
Definition safeInteger (n : Z) : bool :=
  (Z.abs n <=? 9007199254740991)%Z.

(** Number::toString on a safe integer: its decimal digits, with a minus
    sign when negative.  On other integers this is not what the program
    prints; [keyDomain] marks the values it is used on faithfully. *)
Definition numberToString (n : Z) : string :=
  NilZero.string_of_int (Z.to_int n).

(** ToString, which is how a value becomes a property key, for the
    values on which the conversion returns (see [convertible]). *)
Fixpoint toString (v : value) : string :=
  match v with
  | VUndefined => "undefined"
  | VNull => "null"
  | VBool true => "true"
  | VBool false => "false"
  | VNum n => numberToString n
  | VNaN => "NaN"
  | VStr s => s
  | VArr items =>
      String.concat ","
        (map (fun x => match x with
                       | VUndefined | VNull => ""
                       | _ => toString x
                       end) items)
  | VObj _ => "[object Object]"
  end.

(** Whether ToString returns.  An object is converted by the [toString]
    it finds, and a decoded mapping with an own key [toString] hides the
    inherited method behind a value that cannot be called: the
    conversion then raises a TypeError.  A sequence converts each of its
    elements. *)
Fixpoint convertible (v : value) : bool :=
  match v with
  | VObj props => negb (hasProp "toString" props)
  | VArr items => forallb convertible items
  | _ => true
  end.

(** The values whose string form [toString] computes as the program
    does: every number that is printed is a safe integer. *)
Fixpoint keyDomain (v : value) : bool :=
  match v with
  | VNum n => safeInteger n
  | VArr items => forallb keyDomain items
  | _ => true
  end.

Definition isDigit (c : ascii) : bool :=
  ((48 <=? nat_of_ascii c) && (nat_of_ascii c <=? 57))%nat.

Fixpoint digitsValue (acc : N) (s : string) : option N :=
  match s with
  | "" => Some acc
  | String c s' =>
      if isDigit c
      then digitsValue (10 * acc + (N_of_ascii c - 48))%N s'
      else None
  end.

(** A property key is an array index when it is the canonical decimal
    form of an integer below 2^32 - 1. *)
Definition arrayIndex (k : string) : option N :=
  match k with
  | "" => None
  | String c rest =>
      if Ascii.eqb c "0" && negb (isEmpty rest) then None
      else match digitsValue 0 k with
           | Some n => if (n <? 4294967295)%N then Some n else None
           | None => None
           end
  end.

Fixpoint replaceProp (k : string) (v : value) (o : obj) : obj :=
  match o with
  | [] => []
  | (k', v') :: o' =>
      if String.eqb k' k then (k, v) :: o' else (k', v') :: replaceProp k v o'
  end.

(** A new array-index key goes before the first key that is a larger
    index or no index at all. *)
Fixpoint insertIndex (n : N) (k : string) (v : value) (o : obj) : obj :=
  match o with
  | [] => [(k, v)]
  | (k', v') :: o' =>
      match arrayIndex k' with
      | Some n' =>
          if (n <? n')%N then (k, v) :: o
          else (k', v') :: insertIndex n k v o'
      | None => (k, v) :: o
      end
  end.

(** [o[k] = v] on an ordinary object: an existing property keeps its
    place; a new one is enumerated among the array indices in ascending
    order, or after every other key in creation order. *)
Definition setProp (o : obj) (k : string) (v : value) : obj :=
  if hasProp k o then replaceProp k v o
  else match arrayIndex k with
       | Some n => insertIndex n k v o
       | None => o ++ [(k, v)]
       end.

Fixpoint indexed (i : nat) (items : list value) : obj :=
  match items with
  | [] => []
  | x :: rest => (numberToString (Z.of_nat i), x) :: indexed (S i) rest
  end.

Fixpoint chars (s : string) : list value :=
  match s with
  | "" => []
  | String c s' => VStr (single c) :: chars s'
  end.

(** The own enumerable properties an object spread copies. *)
Definition ownEntries (v : value) : obj :=
  match v with
  | VObj o => o
  | VArr items => indexed 0 items
  | VStr s => indexed 0 (chars s)
  | _ => []
  end.

(** [{ ...init, ...v }] where [init] is what the literal has defined so
    far: each copied property is set in turn. *)
Definition spread (init : obj) (v : value) : obj :=
  fold_left (fun o kv => setProp o (fst kv) (snd kv)) (ownEntries v) init.

End Js.
Import Js.

(** ** The environment of a build *)

Inductive result (A : Type) : Type :=
| Returned (a : A)
| Thrown (message : string).
Arguments Returned {A} a.
Arguments Thrown {A} message.

(** What servers.js imports or reads from outside: [fs], [path], the
    [yaml] package and the clock.  [mcpDir] is the value of
    [join(__dirname, '../../mcp')].  [today i] holds, for the file at
    position [i] of the scan, what [new Date().toISOString().split('T')[0]]
    yields on line 105 and on line 109 if it is evaluated there. *)
Record Env : Type := {
  mcpDir : string;
  readdirSync : string -> result (list string);
  readFileSync : string -> result string;
  extname : string -> string;
  basename : string -> string -> string;
  join : string -> string -> string;
  parseYaml : string -> result value;
  today : nat -> string * string
}.

(** ** Front matter (servers.js, lines 43-73) *)

Definition sentinel : string := "// ---".

(** Lines 63-71: the YAML line a comment line contributes. *)
Definition yamlLineOf (line : string) : string :=
  let yamlLine := substringFrom 2 line in
  if startsWith " " yamlLine then yamlLine
  else if negb (isEmpty (trim yamlLine)) then trim yamlLine
  else "".

(** The loop of lines 49-73, with [inFrontMatter] as loop state. *)
Fixpoint frontMatterLoop (inFrontMatter : bool) (lines : list string)
  : list string :=
  match lines with
  | [] => []
  | l :: rest =>
      let line := trim l in
      if String.eqb line sentinel then
        if negb inFrontMatter then frontMatterLoop true rest else []
      else if inFrontMatter && startsWith "//" line then
        yamlLineOf line :: frontMatterLoop inFrontMatter rest
      else frontMatterLoop inFrontMatter rest
  end.

Definition frontMatterLines (contents : string) : list string :=
  frontMatterLoop false (splitLines contents).

(** Lines 76-85: an empty block is not decoded; a decoder failure is
    caught and leaves the empty mapping; a falsy document becomes the
    empty mapping. *)
Definition readMetadata (env : Env) (contents : string) : value :=
  match frontMatterLines contents with
  | [] => VObj []
  | fm =>
      match parseYaml env (joinLines fm) with
      | Returned doc => orElse doc (VObj [])
      | Thrown _ => VObj []
      end
  end.

(** ** Tools (servers.js, lines 119-153) *)

(** The pattern on line 128, [Description\(Q([^Q]+)Q\)] with Q the
    double quote, tried at the start of [s].  The class excludes the quote
    that must follow it, so the only run that can match is the longest
    one. *)
Definition descriptionAt (s : string) : option string :=
  match stripPrefix ("Description(" ++ single dquote) s with
  | Some r =>
      let (d, r') := span (fun c => negb (Ascii.eqb c dquote)) r in
      if isEmpty d then None
      else if startsWith (single dquote ++ ")") r' then Some d else None
  | None => None
  end.

(** Group 1 of the leftmost match of the description pattern. *)
Fixpoint matchDescription (s : string) : option string :=
  match descriptionAt s with
  | Some d => Some d
  | None =>
      match s with
      | "" => None
      | String _ s' => matchDescription s'
      end
  end.

(** [/public static\s+\w+\s+(\w+)\s*\(/] tried at the start of [s].
    Neighbouring pieces match disjoint sets of characters, so every run
    is the longest one and backtracking finds nothing else. *)
Definition methodAt (s : string) : option string :=
  match stripPrefix "public static" s with
  | Some r0 =>
      let (w1, r1) := span isWhiteSpace r0 in
      let (ty, r2) := span isWordChar r1 in
      let (w2, r3) := span isWhiteSpace r2 in
      let (name, r4) := span isWordChar r3 in
      let (_, r5) := span isWhiteSpace r4 in
      if isEmpty w1 || isEmpty ty || isEmpty w2 || isEmpty name then None
      else if startsWith "(" r5 then Some name else None
  | None => None
  end.

(** Group 1 of the leftmost match of the method pattern. *)
Fixpoint matchMethod (s : string) : option string :=
  match methodAt s with
  | Some m => Some m
  | None =>
      match s with
      | "" => None
      | String _ s' => matchMethod s'
      end
  end.

Record tool : Type := { name : string; description : string }.

(** Lines 134-138 for one line of the window: the method name when the
    line is a method signature. *)
Definition methodName (l : string) : option string :=
  let methodLine := trim l in
  if includes "public static" methodLine && includes "(" methodLine
  then matchMethod methodLine
  else None.

(** The inner loop of lines 133-147 over the lines of the window: it
    stops at the first signature. *)
Fixpoint findMethod (window : list string) : option string :=
  match window with
  | [] => None
  | l :: rest =>
      match methodName l with
      | Some m => Some m
      | None => findMethod rest
      end
  end.

(** The body of the outer loop at line [l], [following] being the lines
    after it: [j] runs from [i + 1] to [min (i + 10, length) - 1], which
    is the first nine of them. *)
Definition toolsAt (l : string) (following : list string) : list tool :=
  let line := trim l in
  if includes "[McpServerTool" line && includes "Description(" line then
    match matchDescription line with
    | Some d =>
        match findMethod (firstn 9 following) with
        | Some m => [ {| name := m; description := d |} ]
        | None => []
        end
    | None => []
    end
  else [].

Fixpoint scanTools (lines : list string) : list tool :=
  match lines with
  | [] => []
  | l :: rest => toolsAt l rest ++ scanTools rest
  end.

Definition extractToolsFromCSharp (contents : string) : list tool :=
  scanTools (splitLines contents).

(** ** Display code (servers.js, lines 155-192) *)

(** The loop of lines 161-172: the lines after the second sentinel. *)
Fixpoint afterFrontMatter (frontMatterStartFound : bool)
  (lines : list string) : option (list string) :=
  match lines with
  | [] => None
  | l :: rest =>
      if String.eqb (trim l) sentinel then
        if negb frontMatterStartFound then afterFrontMatter true rest
        else Some rest
      else afterFrontMatter frontMatterStartFound rest
  end.

Definition extractCodeWithoutFrontMatter (contents : string) : string :=
  let code :=
    match afterFrontMatter false (splitLines contents) with
    | Some rest => trim (joinLines rest)
    | None => trim contents
    end in
  decodeEntities code.

(** ** The catalog record (servers.js, lines 87-116) *)

Definition toolValue (t : tool) : value :=
  VObj [("name", VStr (name t)); ("description", VStr (description t))].

(** [dates] is what the build-date expression yields on line 105 and on
    line 109; the right operand of a [||] whose left operand is truthy is
    not evaluated, which no value here can observe. *)
Definition parseCSharpMcpServer (env : Env) (dates : string * string)
  (contents filePath : string) : value :=
  let metadata := readMetadata env contents in
  let filename := basename env filePath ".cs" in
  let codeWithoutFrontMatter := extractCodeWithoutFrontMatter contents in
  let tools := extractToolsFromCSharp contents in
  VObj [
    ("id", orElse (get metadata "id") (VStr filename));
    ("name", orElse (get metadata "name") (VStr (filename ++ ".cs")));
    ("description",
      orElse (get metadata "description") (VStr "MCP Server"));
    ("longDescription",
      orElse (orElse (get metadata "longDescription")
                     (get metadata "description"))
             (VStr "MCP Server"));
    ("tags",
      if isArray (get metadata "tags") then get metadata "tags"
      else if truthy (get metadata "tags") then VArr [get metadata "tags"]
      else VArr []);
    ("status", orElse (get metadata "status") (VStr "stable"));
    ("downloads", orElse (get metadata "downloads") (VNum 0));
    ("lastUpdated", orElse (get metadata "lastUpdated") (VStr (fst dates)));
    ("version", orElse (get metadata "version") (VStr "1.0.0"));
    ("author", orElse (get metadata "author") (VStr "Unknown"));
    ("license", orElse (get metadata "license") (VStr "MIT"));
    ("createdDate",
      orElse (orElse (get metadata "createdDate")
                     (get metadata "lastUpdated"))
             (VStr (snd dates)));
    ("envVars", orElse (get metadata "envVars") (VArr []));
    ("tools", VArr (map toolValue tools));
    ("code", VStr contents);
    ("displayCode", VStr codeWithoutFrontMatter)
  ].

(** ** The directory scan (servers.js, lines 18-41) *)

(** A computation of the scan: it updates the [servers] object and then
    returns or throws.  What was stored before a throw stays stored. *)
Definition Scan (A : Type) : Type := obj -> obj * result A.

Definition ret {A : Type} (a : A) : Scan A := fun servers => (servers, Returned a).

Definition bind {A B : Type} (m : Scan A) (k : A -> Scan B) : Scan B :=
  fun servers =>
    match m servers with
    | (servers', Returned a) => k a servers'
    | (servers', Thrown e) => (servers', Thrown e)
    end.

Notation "x <- m ;; k" := (bind m (fun x => k))
  (at level 61, m at next level, right associativity).

(** A call into the environment. *)
Definition call {A : Type} (r : result A) : Scan A := fun servers => (servers, r).

(** [servers[key] = v].  The key is converted first, and a key that
    cannot be converted raises a TypeError before anything is stored.
    Assigning to [__proto__] swaps the prototype and creates no property,
    so the entries stay as they were. *)
Definition assign (key : value) (v : value) : Scan unit :=
  fun servers =>
    if convertible key then
      let k := toString key in
      (if String.eqb k "__proto__" then servers else setProp servers k v,
       Returned tt)
    else
      (servers, Thrown "TypeError: Cannot convert object to primitive value").

(** [try { body } catch (error) { handler }] *)
Definition tryCatch {A : Type} (body : Scan A) (handler : string -> Scan A)
  : Scan A :=
  fun servers =>
    match body servers with
    | (servers', Thrown e) => handler e servers'
    | done => done
    end.

(** The body of the loop of lines 28-34 for the file at position [i]. *)
Definition loadFile (env : Env) (i : nat) (file : string) : Scan unit :=
  let filePath := join env (mcpDir env) file in
  contents <- call (readFileSync env filePath) ;;
  let server := parseCSharpMcpServer env (today env i) contents filePath in
  assign (get server "id") server.

(** [for (const file of files)], [i] counting the files already seen. *)
Fixpoint loadFiles (env : Env) (i : nat) (files : list string) : Scan unit :=
  match files with
  | [] => ret tt
  | file :: rest => _ <- loadFile env i file ;; loadFiles env (S i) rest
  end.

(** Lines 23-34, the block under [try]. *)
Definition loadServers (env : Env) : Scan unit :=
  files <- call (readdirSync env (mcpDir env)) ;;
  loadFiles env 0
    (filter (fun f => String.eqb (extname env f) ".cs") files).

(** The default export of servers.js ([scanDirectory] in the
    specification): the handler only warns, and line 40 returns the
    object whatever happened under [try]. *)
Definition servers (env : Env) : result obj :=
  snd ((_ <- tryCatch (loadServers env) (fun error => ret tt) ;;
        fun servers => (servers, Returned servers)) []).

(** ** The assembler (serversArray.js) *)

(** [Object.entries(serversData).map(([key, value]) => ({ id: key, ...value }))] *)
Definition toList (serversData : obj) : list value :=
  map (fun entry =>
         let key := fst entry in
         let value := snd entry in
         VObj (spread [("id", VStr key)] value))
      serversData.

(** The default export of serversArray.js. *)
Definition serversArray (env : Env) : result (list value) :=
  match servers env with
  | Returned serversData => Returned (toList serversData)
  | Thrown e => Thrown e
  end.

(** ** Vocabulary of the specification *)

(** The five entities, in the order of lines 185-189. *)
Definition entities : list string :=
  ["&quot;"; "&#39;"; "&lt;"; "&gt;"; "&amp;"].

Definition entityFree (s : string) : bool :=
  forallb (fun e => negb (includes e s)) entities.

(** The metadata fields of a catalog record. *)
Definition metadataFields : list string :=
  ["id"; "name"; "description"; "longDescription"; "tags"; "status";
   "downloads"; "lastUpdated"; "version"; "author"; "license";
   "createdDate"; "envVars"].

(** The defaults the specification documents for a file without
    metadata (section 4.1, step 4), [filename] being the file name
    without its extension and [buildDate] the date [lastUpdated] resolves
    to: [longDescription] is the resolved [description] and [createdDate]
    the resolved [lastUpdated]. *)
Definition documentedDefault (filename buildDate field : string) : value :=
  if String.eqb field "id" then VStr filename
  else if String.eqb field "name" then VStr (filename ++ ".cs")
  else if String.eqb field "description" then VStr "MCP Server"
  else if String.eqb field "longDescription" then VStr "MCP Server"
  else if String.eqb field "tags" then VArr []
  else if String.eqb field "status" then VStr "stable"
  else if String.eqb field "downloads" then VNum 0
  else if String.eqb field "lastUpdated" then VStr buildDate
  else if String.eqb field "version" then VStr "1.0.0"
  else if String.eqb field "author" then VStr "Unknown"
  else if String.eqb field "license" then VStr "MIT"
  else if String.eqb field "createdDate" then VStr buildDate
  else if String.eqb field "envVars" then VArr []
  else VUndefined.

(** What the chains of lines 98-110 give each field when the metadata
    has none of them, [filename] being the file name without its
    extension and [dates] the two readings of the clock.  This is the
    documented default of every field but [createdDate], which takes the
    second reading and not the resolved [lastUpdated]. *)
Definition defaultValue (filename : string) (dates : string * string)
  (field : string) : value :=
  if String.eqb field "id" then VStr filename
  else if String.eqb field "name" then VStr (filename ++ ".cs")
  else if String.eqb field "description" then VStr "MCP Server"
  else if String.eqb field "longDescription" then VStr "MCP Server"
  else if String.eqb field "tags" then VArr []
  else if String.eqb field "status" then VStr "stable"
  else if String.eqb field "downloads" then VNum 0
  else if String.eqb field "lastUpdated" then VStr (fst dates)
  else if String.eqb field "version" then VStr "1.0.0"
  else if String.eqb field "author" then VStr "Unknown"
  else if String.eqb field "license" then VStr "MIT"
  else if String.eqb field "createdDate" then VStr (snd dates)
  else if String.eqb field "envVars" then VArr []
  else VUndefined.

(** A line is a sentinel line when it trims to the delimiter. *)
Definition isSentinelLine (l : string) : bool := String.eqb (trim l) sentinel.

(** A line opens a tool occurrence when it carries the attribute marker
    and a description call (line 127). *)
Definition isToolAttributeLine (l : string) : bool :=
  includes "[McpServerTool" (trim l) && includes "Description(" (trim l).

(** What the outer loop of the tool scanner emits at line [i]. *)
Definition emittedAt (lines : list string) (i : nat) : list tool :=
  match nth_error lines i with
  | Some l => toolsAt l (skipn (S i) lines)
  | None => []
  end.

(** Every entry of the store is a record the parser built, kept under
    the string form of the record's [id]. *)
Definition scanned (env : Env) (store : obj) : Prop :=
  forall k r, In (k, r) store ->
    (exists dates contents filePath,
       r = parseCSharpMcpServer env dates contents filePath) /\
    toString (get r "id") = k.

(** The files of a listing the scan processes (line 25). *)
Definition csFiles (env : Env) (listed : list string) : list string :=
  filter (fun f => String.eqb (extname env f) ".cs") listed.

(** The string form of a record's [id], which is its key in the
    mapping. *)
Definition idString (record : value) : string := toString (get record "id").

(** The environment with another file reader. *)
Definition withReadFileSync (env : Env) (read : string -> result string)
  : Env :=
  {| mcpDir := mcpDir env;
     readdirSync := readdirSync env;
     readFileSync := read;
     extname := extname env;
     basename := basename env;
     join := join env;
     parseYaml := parseYaml env;
     today := today env |}.

(** Every character of [s] satisfies [f]. *)
Fixpoint forallChars (f : ascii -> bool) (s : string) : bool :=
  match s with
  | "" => true
  | String c s' => f c && forallChars f s'
  end.

(** The comment lines of a block, as the loop of lines 49-73 sees them. *)
Definition commentLines (block : list string) : list string :=
  map yamlLineOf (filter (startsWith "//") (map trim block)).

(** The ids of the records the loop of lines 28-34 stores, file by
    file, up to the first file that cannot be read or whose id cannot be
    made a key. *)
Fixpoint scanIds (env : Env) (i : nat) (files : list string) : list value :=
  match files with
  | [] => []
  | file :: rest =>
      let filePath := join env (mcpDir env) file in
      match readFileSync env filePath with
      | Returned contents =>
          let id :=
            get (parseCSharpMcpServer env (today env i) contents filePath)
              "id" in
          if convertible id then id :: scanIds env (S i) rest else []
      | Thrown _ => []
      end
  end.

(** ** Sample environments *)

Module Sample.

(** Node's [path] functions on relative POSIX paths with no trailing
    slash, enough for the file names of the samples. *)
Fixpoint lastSegment (p : string) : string :=
  match p with
  | "" => ""
  | String _ p' => if includes "/" p then lastSegment p' else p
  end.

Fixpoint dropSuffix (ext s : string) : string :=
  if String.eqb s ext then ""
  else match s with
       | "" => ""
       | String c s' => String c (dropSuffix ext s')
       end.

Definition posixBasename (p ext : string) : string :=
  let b := lastSegment p in
  if String.eqb b ext then b else dropSuffix ext b.

Fixpoint lastDot (s : string) : option string :=
  match s with
  | "" => None
  | String c s' =>
      match lastDot s' with
      | Some e => Some e
      | None => if Ascii.eqb c "." then Some s else None
      end
  end.

Definition posixExtname (f : string) : string :=
  match lastSegment f with
  | "" => ""
  | String _ rest =>
      if String.eqb (lastSegment f) ".." then ""
      else match lastDot rest with Some e => e | None => "" end
  end.

Definition posixJoin (dir file : string) : string := dir ++ "/" ++ file.

(** A build whose clock passes midnight between two readings. *)
Definition midnight : string * string := ("2026-11-03", "2026-11-04").

(** An environment over a list of files [(name, contents)]: a file with
    contents [Thrown _] cannot be read; the decoder answers [doc] for
    every block. *)
Fixpoint readFrom (files : list (string * result string)) (path : string)
  : result string :=
  match files with
  | [] => Thrown "ENOENT"
  | (f, c) :: rest =>
      if String.eqb (posixJoin "mcp" f) path then c else readFrom rest path
  end.

Definition env (files : list (string * result string)) (doc : result value)
  : Env :=
  {| mcpDir := "mcp";
     readdirSync := fun _ => Returned (map fst files);
     readFileSync := readFrom files;
     extname := posixExtname;
     basename := posixBasename;
     join := posixJoin;
     parseYaml := fun _ => doc;
     today := fun _ => midnight |}.

(** A file with a front-matter block of one line. *)
Definition withBlock (yamlLine body : string) : string :=
  joinLines ["// ---"; ("// " ++ yamlLine)%string; "// ---"; body].

(** The head of [mcp/date-times-mcp.cs] and the first of its tools. *)
Definition dateTimes : string :=
  joinLines
    ["// ---";
     "// id: date-times-mcp";
     "// tags:";
     "//   - datetime";
     "//   - utilities";
     "// status: stable";
     "// ---";
     "#:package ModelContextProtocol@0.3.0-preview.3";
     "using System.ComponentModel;";
     "";
     "[McpServerToolType] ";
     "public static class DateTimeTools";
     "{";
     ("    [McpServerTool, Description(" ++ single dquote
      ++ "Gets current date and time in various formats" ++ single dquote
      ++ ")]")%string;
     "    public static CurrentDateTimeResult GetCurrentDateTime(";
     "        string format)";
     "    {";
     "    }";
     "}"].

(** Lines 42 to 59 of [mcp/date-times-mcp.cs]: three tools, the second
    of which returns a tuple. *)
Definition dateTimesTools : string :=
  joinLines
    [("    [McpServerTool, Description(" ++ single dquote
      ++ "Gets current date and time in various formats" ++ single dquote
      ++ ")]")%string;
     ("    public static string GetCurrentDateTime(string format = "
      ++ single dquote ++ "yyyy-MM-dd HH:mm:ss" ++ single dquote
      ++ ")")%string;
     "    {";
     "        return DateTime.Now.ToString(format);";
     "    }";
     "";
     ("    [McpServerTool, Description(" ++ single dquote
      ++ "Calculates the difference between two dates" ++ single dquote
      ++ ")]")%string;
     "    public static (int days, int hours, int minutes) DateDifference(DateTime startDate, DateTime endDate)";
     "    {";
     "        var diff = endDate - startDate;";
     "        return (diff.Days, diff.Hours, diff.Minutes);";
     "    }";
     "";
     ("    [McpServerTool, Description(" ++ single dquote
      ++ "Adds or subtracts time from a date" ++ single dquote
      ++ ")]")%string;
     "    public static DateTime AddTime(DateTime date, int days = 0, int hours = 0, int minutes = 0)";
     "    {";
     "        return date.AddDays(days).AddHours(hours).AddMinutes(minutes);";
     "    }"].

(** [text] with every line ending turned into CR LF. *)
Fixpoint withCarriageReturns (text : string) : string :=
  match text with
  | "" => ""
  | String c rest =>
      if Ascii.eqb c LF
      then String (ascii_of_nat 13) (String LF (withCarriageReturns rest))
      else String c (withCarriageReturns rest)
  end.

(** The tool scenario of the specification: an attribute line and, two
    lines below it, a method signature. *)
Definition toolFile : string :=
  joinLines
    [("    [McpServerTool, Description(" ++ single dquote ++ "Does X"
      ++ single dquote ++ ")]")%string;
     "    // remarks";
     "    public static string DoX(int times)";
     "    {";
     "    }"].

End Sample.

(** * Properties *)

(** ** The model on the repository's samples *)

Example trim_both_ends : trim (String LF "  // ---  ") = "// ---".
Proof. reflexivity. Qed.

Example splitLines_trailing_newline :
  splitLines (String "a" (String LF (String "b" (String LF ""))))
  = ["a"; "b"; ""].
Proof. reflexivity. Qed.

Example frontMatter_of_dateTimes :
  frontMatterLines Sample.dateTimes
  = [" id: date-times-mcp"; " tags:"; "   - datetime"; "   - utilities";
     " status: stable"].
Proof. reflexivity. Qed.

Example yamlLine_without_space : yamlLineOf "//key: value" = "key: value".
Proof. reflexivity. Qed.

Example tools_of_dateTimes :
  extractToolsFromCSharp Sample.dateTimes
  = [ {| name := "GetCurrentDateTime";
         description := "Gets current date and time in various formats" |} ].
Proof. reflexivity. Qed.

Example methodName_generic_return_type :
  methodName "public static async Task<string> Run(string url)" = None.
Proof. reflexivity. Qed.

Example displayCode_of_dateTimes :
  startsWith "#:package ModelContextProtocol"
    (extractCodeWithoutFrontMatter Sample.dateTimes) = true.
Proof. reflexivity. Qed.

Example record_of_dateTimes :
  let e := Sample.env []
             (Returned (VObj [("id", VStr "date-times-mcp");
                              ("tags", VArr [VStr "datetime"; VStr "utilities"]);
                              ("status", VStr "stable")])) in
  let server :=
    parseCSharpMcpServer e ("2026-11-03", "2026-11-03") Sample.dateTimes
      "mcp/date-times-mcp.cs" in
  map (get server) ["id"; "name"; "status"; "version"; "createdDate"]
  = [VStr "date-times-mcp"; VStr "date-times-mcp.cs"; VStr "stable";
     VStr "1.0.0"; VStr "2026-11-03"].
Proof. reflexivity. Qed.

Example index_keys_come_first :
  map fst (setProp (setProp (setProp [] "b" VNull) "10" VNull) "9" VNull)
  = ["9"; "10"; "b"].
Proof. reflexivity. Qed.

Example unconvertible_id_stops_the_scan :
  servers (Sample.env [("a.cs", Returned (Sample.withBlock "id: {toString: 1}" "class A {}"));
                       ("b.cs", Returned "class B {}")]
             (Returned (VObj [("id", VObj [("toString", VNum 1)])])))
  = Returned [].
Proof. reflexivity. Qed.

Example toString_of_array :
  toString (VArr [VStr "a"; VNull; VNum 7]) = "a,,7".
Proof. reflexivity. Qed.

(** ** Strings *)

Section StringFacts.

Lemma stripPrefix_length (p s r : string) :
  stripPrefix p s = Some r -> String.length s = String.length p + String.length r.
Proof.
  revert s; induction p as [|a p IH]; intros s H; simpl in *.
  - now inversion H.
  - destruct s as [|b s]; [discriminate|].
    destruct (Ascii.eqb a b); [|discriminate].
    simpl; now rewrite (IH _ H).
Qed.

Lemma startsWith_cons (a b : ascii) (p s : string) :
  startsWith (String a p) (String b s) = Ascii.eqb a b && startsWith p s.
Proof. unfold startsWith; simpl; now destruct (Ascii.eqb a b). Qed.

Lemma includes_cons_false (p : string) (c : ascii) (s : string) :
  includes p (String c s) = false ->
  startsWith p (String c s) = false /\ includes p s = false.
Proof. simpl; intros H; now apply orb_false_elim in H. Qed.

(** A pattern missing from a string is missing from what follows a
    prefix of it. *)
Lemma includes_after_prefix (q p s r : string) :
  stripPrefix q s = Some r -> includes p s = false -> includes p r = false.
Proof.
  revert s; induction q as [|a q IH]; intros s Hq Hp; simpl in Hq.
  - now inversion Hq; subst.
  - destruct s as [|b s]; [discriminate|].
    destruct (Ascii.eqb a b); [|discriminate].
    apply includes_cons_false in Hp; destruct Hp as [_ Hp]; eauto.
Qed.

Lemma lacks_head (c a : ascii) (p : string) :
  lacks c (String a p) = true -> Ascii.eqb a c = false.
Proof. simpl; intros H; apply andb_prop in H; now destruct (Ascii.eqb a c). Qed.

End StringFacts.

(** ** Global replacement *)

Section Replace.

Variables (pat : string) (c : ascii).
Hypothesis pat_nonempty : pat <> "".

Let R (n : nat) (s : string) : string := replaceLoop n pat (single c) s.

Lemma stripPrefix_pat_shorter (s r : string) :
  stripPrefix pat s = Some r -> String.length r < String.length s.
Proof.
  intros H; apply stripPrefix_length in H.
  destruct pat; [congruence|simpl in H; lia].
Qed.

(** A non-empty word without the replacement character that starts the
    output starts the input too, at a place where no match was taken. *)
Lemma replace_startsWith (n : nat) : forall (s p : string),
  String.length s <= n -> p <> "" -> lacks c p = true ->
  startsWith p (R n s) = true ->
  startsWith p s = true /\ stripPrefix pat s = None.
Proof.
  unfold R; induction n as [|n IH]; intros s p Hn Hp Hc H.
  - destruct s; [|simpl in Hn; lia].
    destruct p; [congruence|discriminate].
  - destruct s as [|a s]; [destruct p; [congruence|discriminate]|].
    destruct p as [|b p]; [congruence|].
    cbn [replaceLoop] in H.
    destruct (stripPrefix pat (String a s)) as [r|] eqn:E.
    + cbn in H. rewrite startsWith_cons in H.
      apply lacks_head in Hc. apply andb_prop in H; destruct H as [H _].
      congruence.
    + rewrite startsWith_cons in H |- *.
      apply andb_prop in H; destruct H as [Hab H]. rewrite Hab; split; [|reflexivity].
      destruct p as [|b' p]; [reflexivity|].
      simpl in Hn, Hc. apply andb_prop in Hc; destruct Hc as [_ Hc].
      apply (IH s (String b' p)); [lia|congruence|exact Hc|exact H].
Qed.

(** Replacing leaves absent what was absent, when the replacement
    character is foreign to the word. *)
Lemma replace_keeps_absent (p : string) (n : nat) : forall s,
  String.length s <= n -> p <> "" -> lacks c p = true ->
  includes p s = false -> includes p (R n s) = false.
Proof.
  induction n as [|n IH]; intros s Hn Hp Hc H.
  - destruct s; [exact H|simpl in Hn; lia].
  - destruct s as [|a s]; [exact H|].
    destruct (startsWith p (R (S n) (String a s))) eqn:Est.
    + apply replace_startsWith in Est; auto.
      apply includes_cons_false in H. destruct Est, H; congruence.
    + unfold R in *; cbn [replaceLoop] in *.
      destruct (stripPrefix pat (String a s)) as [r|] eqn:E.
      * cbn in Est |- *. rewrite Est; simpl.
        apply IH; auto.
        -- apply stripPrefix_pat_shorter in E; simpl in *; lia.
        -- eapply includes_after_prefix; eauto.
      * cbn [includes]. rewrite Est; simpl.
        apply includes_cons_false in H; destruct H as [_ H].
        apply IH; auto. simpl in Hn; lia.
Qed.

(** After the replacement no occurrence of the pattern is left. *)
Lemma replace_removes (n : nat) : forall s,
  String.length s <= n -> lacks c pat = true -> includes pat (R n s) = false.
Proof.
  induction n as [|n IH]; intros s Hn Hc.
  - destruct s; [|simpl in Hn; lia]. unfold R; simpl.
    destruct pat; [congruence|reflexivity].
  - destruct s as [|a s].
    { unfold R; simpl. destruct pat; [congruence|reflexivity]. }
    destruct (startsWith pat (R (S n) (String a s))) eqn:Est.
    + apply replace_startsWith in Est; auto.
      destruct Est as [E1 E2]. unfold startsWith in E1. now rewrite E2 in E1.
    + unfold R in *; cbn [replaceLoop] in *.
      destruct (stripPrefix pat (String a s)) as [r|] eqn:E.
      * cbn in Est |- *. rewrite Est; simpl.
        apply IH; auto. apply stripPrefix_pat_shorter in E; simpl in *; lia.
      * cbn [includes]. rewrite Est; simpl.
        apply IH; auto. simpl in Hn; lia.
Qed.

End Replace.

(** Without an occurrence of the pattern the replacement changes
    nothing, whatever the fuel. *)
Lemma replaceLoop_absent (pat rep : string) (n : nat) : forall s,
  includes pat s = false -> replaceLoop n pat rep s = s.
Proof.
  induction n as [|n IH]; intros s H; [reflexivity|].
  destruct s as [|a s]; [reflexivity|].
  apply includes_cons_false in H; destruct H as [H1 H2].
  cbn [replaceLoop]. unfold startsWith in H1.
  destruct (stripPrefix pat (String a s)); [discriminate|].
  now rewrite IH.
Qed.

(** The fuel [replaceAll] gives is enough: more fuel changes nothing. *)
Lemma replaceLoop_fuel (pat rep : string) (n : nat) : forall s m,
  pat <> "" -> String.length s <= n -> String.length s <= m ->
  replaceLoop n pat rep s = replaceLoop m pat rep s.
Proof.
  induction n as [|n IH]; intros s m Hp Hn Hm.
  - destruct s; [|simpl in Hn; lia]. now destruct m.
  - destruct s as [|a s]; [now destruct m|].
    destruct m as [|m]; [simpl in Hm; lia|].
    cbn [replaceLoop].
    destruct (stripPrefix pat (String a s)) as [r|] eqn:E.
    + f_equal. apply stripPrefix_length in E.
      assert (0 < String.length pat) by (destruct pat; [congruence|simpl; lia]).
      apply IH; auto; simpl in *; lia.
    + f_equal. apply IH; auto; simpl in *; lia.
Qed.

Lemma replaceAll_absent (pat rep s : string) :
  includes pat s = false -> replaceAll pat rep s = s.
Proof. apply replaceLoop_absent. Qed.

Lemma replaceAll_keeps_absent (pat p : string) (c : ascii) (s : string) :
  pat <> "" -> p <> "" -> lacks c p = true ->
  includes p s = false -> includes p (replaceAll pat (single c) s) = false.
Proof. intros; apply replace_keeps_absent; auto. Qed.

Lemma replaceAll_removes (pat : string) (c : ascii) (s : string) :
  pat <> "" -> lacks c pat = true ->
  includes pat (replaceAll pat (single c) s) = false.
Proof. intros; apply replace_removes; auto. Qed.

(** ** Entity decoding *)

Ltac absent_step :=
  first [ apply replaceAll_removes; [discriminate | reflexivity]
        | apply replaceAll_keeps_absent;
          [discriminate | discriminate | reflexivity | ] ].

(** With no [&amp;] in the input, nothing decodable is left in the
    output. *)
Lemma decodeEntities_entityFree (text : string) :
  includes "&amp;" text = false -> entityFree (decodeEntities text) = true.
Proof.
  intros H. unfold decodeEntities, entityFree, entities, forallb.
  rewrite (replaceAll_absent "&amp;" "&") by (repeat absent_step; exact H).
  repeat match goal with
         | |- context [negb (includes ?e ?s)] =>
             replace (includes e s) with false;
             [cbn [negb andb] | symmetry; repeat absent_step; exact H]
         end.
  reflexivity.
Qed.

Lemma decodeEntities_fixes_entityFree (s : string) :
  entityFree s = true -> decodeEntities s = s.
Proof.
  unfold entityFree, entities, forallb. intros H.
  repeat (apply andb_prop in H; destruct H as [?E H]).
  repeat match goal with
         | E : negb _ = true |- _ => apply negb_true_iff in E
         end.
  unfold decodeEntities.
  rewrite (replaceAll_absent "&quot;") by assumption.
  rewrite (replaceAll_absent "&#39;") by assumption.
  rewrite (replaceAll_absent "&lt;") by assumption.
  rewrite (replaceAll_absent "&gt;") by assumption.
  now rewrite (replaceAll_absent "&amp;") by assumption.
Qed.

(** C2, as amended.  The entity-decode step is idempotent on every text in
    which [&amp;] does not occur: applying the five replacements to its own
    output yields the same text again. *)
Theorem decodeEntities_idempotent_without_amp (text : string) :
  includes "&amp;" text = false ->
  decodeEntities (decodeEntities text) = decodeEntities text.
Proof.
  intros H. apply decodeEntities_fixes_entityFree.
  now apply decodeEntities_entityFree.
Qed.

Lemma decodeEntities_idempotent_without_amp_witness :
  includes "&amp;" "List&lt;string&gt; x = &quot;a&quot;;" = false /\
  decodeEntities (decodeEntities "List&lt;string&gt; x = &quot;a&quot;;")
  = decodeEntities "List&lt;string&gt; x = &quot;a&quot;;".
Proof.
  split; [reflexivity|].
  apply decodeEntities_idempotent_without_amp; reflexivity.
Defined.

(** C2, as stated, fails: an escaped entity is decoded once by each
    application, so the second application changes the text again. *)
Lemma decodeEntities_not_idempotent :
  decodeEntities "&amp;lt;" = "&lt;" /\
  decodeEntities (decodeEntities "&amp;lt;") = "<" /\
  ~ (forall text, decodeEntities (decodeEntities text) = decodeEntities text).
Proof.
  split; [reflexivity|]. split; [reflexivity|].
  intros H. specialize (H "&amp;lt;"). discriminate H.
Qed.

(** ** The catalog record *)

Section Record.

Variables (env : Env) (dates : string * string) (contents filePath : string).

Let server : value := parseCSharpMcpServer env dates contents filePath.
Let filename : string := basename env filePath ".cs".

(** Lines 76-85 when the decoder returns. *)
Lemma readMetadata_decoded (doc : value) :
  frontMatterLines contents <> [] ->
  parseYaml env (joinLines (frontMatterLines contents)) = Returned doc ->
  readMetadata env contents = orElse doc (VObj []).
Proof.
  unfold readMetadata. intros Hne Hdoc.
  destruct (frontMatterLines contents); [congruence|now rewrite Hdoc].
Qed.

(** Lines 76-85 when the decoder throws. *)
Lemma readMetadata_failed (message : string) :
  parseYaml env (joinLines (frontMatterLines contents)) = Thrown message ->
  readMetadata env contents = VObj [].
Proof.
  unfold readMetadata. intros Hdoc.
  destruct (frontMatterLines contents); [reflexivity|now rewrite Hdoc].
Qed.

(** Lines 76-77 when there is no block. *)
Lemma readMetadata_no_block :
  frontMatterLines contents = [] -> readMetadata env contents = VObj [].
Proof. unfold readMetadata. now intros ->. Qed.

(** Every field of a record built from the empty mapping is its
    default. *)
Lemma empty_metadata_defaults :
  readMetadata env contents = VObj [] ->
  forall field, In field metadataFields ->
    get server field = defaultValue filename dates field.
Proof.
  intros Hmd field Hin. unfold server, parseCSharpMcpServer. rewrite Hmd.
  unfold metadataFields in Hin.
  repeat (destruct Hin as [<-|Hin]; [reflexivity|]).
  destruct Hin.
Qed.

(** Apart from [createdDate], these are the documented defaults. *)
Lemma empty_metadata_documented :
  readMetadata env contents = VObj [] ->
  forall field, In field metadataFields -> field <> "createdDate" ->
    get server field = documentedDefault filename (fst dates) field.
Proof.
  intros Hmd field Hin Hfield.
  rewrite (empty_metadata_defaults Hmd field Hin).
  unfold metadataFields in Hin.
  repeat (destruct Hin as [<-|Hin]; [first [reflexivity|congruence]|]).
  destruct Hin.
Qed.

(** The record of the empty mapping takes its [createdDate] from the
    second reading of the clock. *)
Lemma empty_metadata_createdDate :
  readMetadata env contents = VObj [] ->
  get server "createdDate" = VStr (snd dates).
Proof.
  intros Hmd. apply (empty_metadata_defaults Hmd "createdDate").
  unfold metadataFields. simpl. tauto.
Qed.

(** The record of the empty mapping has the file name as [id], which
    converts to a key. *)
Lemma empty_metadata_id :
  readMetadata env contents = VObj [] ->
  get server "id" = VStr filename.
Proof.
  intros Hmd. apply (empty_metadata_defaults Hmd "id").
  unfold metadataFields. simpl. tauto.
Qed.

(** C3, as amended.  When the metadata block decodes, each field present
    with a truthy value appears unchanged in the record ([tags] when it
    is a sequence), and each of [id], [name], [description], [status],
    [downloads], [lastUpdated], [version], [author], [license] and
    [envVars] that is absent, or present with a falsy value, equals its
    default. *)
Theorem decoded_fields_kept_or_defaulted (doc : value) :
  frontMatterLines contents <> [] ->
  parseYaml env (joinLines (frontMatterLines contents)) = Returned doc ->
  let metadata := orElse doc (VObj []) in
  (forall field, In field metadataFields -> field <> "tags" ->
     truthy (get metadata field) = true ->
     get server field = get metadata field) /\
  (isArray (get metadata "tags") = true ->
     get server "tags" = get metadata "tags") /\
  (forall field,
     In field ["id"; "name"; "description"; "status"; "downloads";
               "lastUpdated"; "version"; "author"; "license"; "envVars"] ->
     truthy (get metadata field) = false ->
     get server field = defaultValue filename dates field).
Proof.
  intros Hne Hdoc metadata.
  pose proof (readMetadata_decoded doc Hne Hdoc) as Hmd.
  fold metadata in Hmd.
  unfold server, parseCSharpMcpServer. rewrite Hmd. clearbody metadata.
  split; [|split].
  - intros field Hin Htags Ht. unfold metadataFields in Hin.
    repeat (destruct Hin as [<-|Hin];
            [first [congruence
                   | cbn [get lookup String.eqb Ascii.eqb Bool.eqb];
                     unfold orElse; rewrite Ht; cbn [truthy]; now rewrite ?Ht]|]).
    destruct Hin.
  - intros Harr. cbn [get lookup String.eqb Ascii.eqb Bool.eqb].
    now rewrite Harr.
  - intros field Hin Hf.
    repeat (destruct Hin as [<-|Hin];
            [cbn [get lookup String.eqb Ascii.eqb Bool.eqb];
             unfold orElse; now rewrite Hf|]).
    destruct Hin.
Qed.

End Record.

Lemma decoded_fields_kept_or_defaulted_witness :
  let doc := VObj [("id", VStr "sample-one");
                   ("tags", VArr [VStr "alpha"; VStr "beta"])] in
  let e := Sample.env [] (Returned doc) in
  let contents := Sample.withBlock "id: sample-one" "class Body {}" in
  let server := parseCSharpMcpServer e Sample.midnight contents "mcp/one.cs" in
  get server "id" = VStr "sample-one" /\
  get server "tags" = VArr [VStr "alpha"; VStr "beta"] /\
  get server "status" = VStr "stable".
Proof.
  intros doc e contents server.
  destruct (decoded_fields_kept_or_defaulted e Sample.midnight contents
              "mcp/one.cs" doc) as (Hkept & Htags & Hdefault).
  - discriminate.
  - reflexivity.
  - split; [|split].
    + apply (Hkept "id"); [simpl; tauto|discriminate|reflexivity].
    + apply Htags; reflexivity.
    + apply (Hdefault "status"); [simpl; tauto|reflexivity].
Defined.

(** C3, as stated, fails: a field that is present with a falsy value is
    replaced by its default.  Here the block sets [status] to the empty
    string and [version] to the number 0. *)
Lemma explicit_falsy_field_replaced :
  let decoded := [("status", VStr ""); ("version", VNum 0)] in
  let e := Sample.env [] (Returned (VObj decoded)) in
  let contents := Sample.withBlock "status: ''" "class Body {}" in
  let server := parseCSharpMcpServer e Sample.midnight contents "mcp/one.cs" in
  frontMatterLines contents <> [] /\
  parseYaml e (joinLines (frontMatterLines contents)) = Returned (VObj decoded) /\
  lookup "status" decoded = Some (VStr "") /\
  get server "status" = VStr "stable" /\
  lookup "version" decoded = Some (VNum 0) /\
  get server "version" = VStr "1.0.0".
Proof. cbv zeta. repeat split; try reflexivity; discriminate. Qed.

Section Defaulting.

Variables (env : Env) (dates : string * string) (contents filePath : string).

Let metadata : value := readMetadata env contents.
Let server : value := parseCSharpMcpServer env dates contents filePath.
Let filename : string := basename env filePath ".cs".

Ltac field_of_server :=
  unfold server, parseCSharpMcpServer; fold metadata;
  cbn [get lookup String.eqb Ascii.eqb Bool.eqb].

(** C4, as amended.  When the decoded [tags] is not a sequence, the
    record's [tags] is the one-element sequence holding it if it is
    truthy and the empty sequence if it is falsy; when [tags] is absent
    it is the empty sequence. *)
Theorem tags_wrapped_when_truthy :
  isArray (get metadata "tags") = false ->
  get server "tags"
  = (if truthy (get metadata "tags")
     then VArr [get metadata "tags"] else VArr [])
  /\ (get metadata "tags" = VUndefined -> get server "tags" = VArr []).
Proof.
  intros Harr. split.
  - field_of_server. now rewrite Harr.
  - intros Habsent. field_of_server. now rewrite Habsent.
Qed.

(** C8, as amended.  When [createdDate] and [lastUpdated] are both absent
    (or falsy), [lastUpdated] is the build date read on line 105 and
    [createdDate] is the build date read again, independently, on line
    109; the two fields are equal when the two readings are. *)
Theorem createdDate_reads_clock_again :
  truthy (get metadata "createdDate") = false ->
  truthy (get metadata "lastUpdated") = false ->
  get server "lastUpdated" = VStr (fst dates) /\
  get server "createdDate" = VStr (snd dates) /\
  (fst dates = snd dates ->
   get server "createdDate" = get server "lastUpdated").
Proof.
  intros Hc Hl.
  assert (L : get server "lastUpdated" = VStr (fst dates)).
  { field_of_server. unfold orElse. now rewrite Hl. }
  assert (C : get server "createdDate" = VStr (snd dates)).
  { field_of_server. unfold orElse. rewrite Hc. cbv iota. now rewrite Hl. }
  repeat split; auto. intros E. now rewrite L, C, E.
Qed.

(** C9, as amended.  When the front-matter block fails to decode, the
    failure is caught where it is raised: the metadata is the empty
    mapping, every field of the record other than [createdDate] equals
    its documented default, [createdDate] is the build date as read by
    the second evaluation of the clock on line 109 (its documented
    default, the resolved [lastUpdated], whenever the two readings
    agree), and the scan's step for that file returns normally. *)
Theorem malformed_front_matter_defaults (message : string) :
  frontMatterLines contents <> [] ->
  parseYaml env (joinLines (frontMatterLines contents)) = Thrown message ->
  metadata = VObj [] /\
  (forall field, In field metadataFields -> field <> "createdDate" ->
     get server field = documentedDefault filename (fst dates) field) /\
  get server "createdDate" = VStr (snd dates) /\
  (fst dates = snd dates ->
   get server "createdDate"
   = documentedDefault filename (fst dates) "createdDate") /\
  (forall i file store,
     join env (mcpDir env) file = filePath ->
     readFileSync env filePath = Returned contents ->
     snd (loadFile env i file store) = Returned tt).
Proof.
  intros _ Hthrown.
  pose proof (readMetadata_failed env contents message Hthrown) as Hmd.
  pose proof (empty_metadata_createdDate env dates contents filePath Hmd)
    as Hcreated.
  split; [exact Hmd|]. split; [|split; [exact Hcreated|split]].
  - now apply empty_metadata_documented.
  - intros Hsame. unfold server. rewrite Hcreated, Hsame. reflexivity.
  - intros i file store Hpath Hread.
    unfold loadFile, bind, call, assign. rewrite Hpath, Hread.
    rewrite (empty_metadata_id env (today env i) contents filePath Hmd).
    cbn [convertible toString]. reflexivity.
Qed.

End Defaulting.

Lemma tags_wrapped_when_truthy_witness :
  let e := Sample.env [] (Returned (VObj [("tags", VStr "solo")])) in
  let contents := Sample.withBlock "tags: solo" "class Body {}" in
  get (parseCSharpMcpServer e Sample.midnight contents "mcp/one.cs") "tags"
  = VArr [VStr "solo"].
Proof.
  intros e contents.
  apply (tags_wrapped_when_truthy e Sample.midnight contents "mcp/one.cs").
  reflexivity.
Defined.

(** C4, as stated, fails: a falsy scalar is dropped, not wrapped.  Here
    the block sets [tags] to the number 0. *)
Lemma falsy_scalar_tags_dropped :
  let decoded := [("tags", VNum 0)] in
  let e := Sample.env [] (Returned (VObj decoded)) in
  let contents := Sample.withBlock "tags: 0" "class Body {}" in
  let server := parseCSharpMcpServer e Sample.midnight contents "mcp/one.cs" in
  parseYaml e (joinLines (frontMatterLines contents)) = Returned (VObj decoded) /\
  lookup "tags" decoded = Some (VNum 0) /\
  get server "tags" = VArr [] /\
  get server "tags" <> VArr [VNum 0].
Proof. cbv zeta. repeat split; try reflexivity; discriminate. Qed.

Lemma createdDate_reads_clock_again_witness :
  let e := Sample.env [] (Returned (VObj [("id", VStr "one")])) in
  let contents := Sample.withBlock "id: one" "class Body {}" in
  let server := parseCSharpMcpServer e Sample.midnight contents "mcp/one.cs" in
  get server "lastUpdated" = VStr "2026-11-03" /\
  get server "createdDate" = VStr "2026-11-04".
Proof.
  intros e contents server.
  destruct (createdDate_reads_clock_again e Sample.midnight contents
              "mcp/one.cs") as (L & C & _); [reflexivity|reflexivity|].
  split; [exact L|exact C].
Defined.

(** C8, as stated, fails: [createdDate] does not take the resolved
    [lastUpdated]; it reads the clock a second time, so a build that
    passes midnight between the two readings gets two different dates. *)
Lemma createdDate_differs_from_lastUpdated :
  let e := Sample.env [] (Returned (VObj [])) in
  let server :=
    parseCSharpMcpServer e ("2026-11-03", "2026-11-04") "class Body {}"
      "mcp/one.cs" in
  get (readMetadata e "class Body {}") "createdDate" = VUndefined /\
  get (readMetadata e "class Body {}") "lastUpdated" = VUndefined /\
  get server "lastUpdated" = VStr "2026-11-03" /\
  get server "createdDate" = VStr "2026-11-04" /\
  get server "createdDate" <> get server "lastUpdated".
Proof. cbv zeta. repeat split; try reflexivity; discriminate. Qed.

Lemma malformed_front_matter_defaults_witness :
  let contents := Sample.withBlock "tags: [unclosed" "class Body {}" in
  let e := Sample.env [("bad.cs", Returned contents)]
             (Thrown "Flow sequence in block collection must be closed") in
  let server := parseCSharpMcpServer e Sample.midnight contents "mcp/bad.cs" in
  get server "id" = VStr "bad" /\
  get server "tags" = VArr [] /\
  get server "createdDate" = VStr "2026-11-04" /\
  snd (loadFile e 0 "bad.cs" []) = Returned tt.
Proof.
  intros contents e server.
  destruct (malformed_front_matter_defaults e Sample.midnight contents
              "mcp/bad.cs" "Flow sequence in block collection must be closed")
    as (_ & Hfields & Hcreated & _ & Hstep); [discriminate|reflexivity|].
  split; [|split; [|split]].
  - apply (Hfields "id"); [simpl; tauto|discriminate].
  - apply (Hfields "tags"); [simpl; tauto|discriminate].
  - exact Hcreated.
  - apply Hstep; reflexivity.
Defined.

(** C9, as stated, fails: with a malformed block every field is
    defaulted, but [createdDate] is not its documented default, the
    resolved [lastUpdated]: it is a second reading of the clock, and a
    build that passes midnight between the two readings gets two
    different dates. *)
Lemma malformed_block_createdDate_not_documented :
  let contents := Sample.withBlock "tags: [unclosed" "class Body {}" in
  let e := Sample.env [("bad.cs", Returned contents)]
             (Thrown "Flow sequence in block collection must be closed") in
  let server :=
    parseCSharpMcpServer e ("2026-11-03", "2026-11-04") contents
      "mcp/bad.cs" in
  frontMatterLines contents = [" tags: [unclosed"] /\
  parseYaml e (joinLines (frontMatterLines contents))
  = Thrown "Flow sequence in block collection must be closed" /\
  get server "lastUpdated" = VStr "2026-11-03" /\
  documentedDefault "bad" "2026-11-03" "createdDate" = VStr "2026-11-03" /\
  get server "createdDate" = VStr "2026-11-04" /\
  get server "createdDate"
  <> documentedDefault "bad" "2026-11-03" "createdDate".
Proof. cbv zeta. repeat split; try reflexivity; discriminate. Qed.

(** ** Files without a sentinel line *)

Lemma frontMatterLoop_no_sentinel (lines : list string) :
  (forall l, In l lines -> isSentinelLine l = false) ->
  frontMatterLoop false lines = [].
Proof.
  induction lines as [|l rest IH]; intros H; [reflexivity|].
  cbn [frontMatterLoop].
  pose proof (H l (or_introl eq_refl)) as Hl. unfold isSentinelLine in Hl.
  rewrite Hl. cbn [andb]. apply IH. intros l' Hin. apply H. now right.
Qed.

Lemma afterFrontMatter_no_sentinel (lines : list string) (found : bool) :
  (forall l, In l lines -> isSentinelLine l = false) ->
  afterFrontMatter found lines = None.
Proof.
  induction lines as [|l rest IH]; intros H; [reflexivity|].
  cbn [afterFrontMatter].
  pose proof (H l (or_introl eq_refl)) as Hl. unfold isSentinelLine in Hl.
  rewrite Hl. apply IH. intros l' Hin. apply H. now right.
Qed.

(** C7, as amended.  For a file text with no sentinel line, every
    metadata field of the record other than [createdDate] equals its
    documented default; [createdDate] is the build date as read by the
    second evaluation of the clock on line 109 (its documented default,
    the resolved [lastUpdated], whenever the two readings agree); and
    [displayCode] is the trimmed text with its entities decoded, which
    is the trimmed text itself when that holds none of the five
    entities. *)
Theorem no_sentinel_defaults_and_decoded_code
  (env : Env) (dates : string * string) (contents filePath : string) :
  (forall l, In l (splitLines contents) -> isSentinelLine l = false) ->
  let server := parseCSharpMcpServer env dates contents filePath in
  let filename := basename env filePath ".cs" in
  (forall field, In field metadataFields -> field <> "createdDate" ->
     get server field = documentedDefault filename (fst dates) field) /\
  get server "createdDate" = VStr (snd dates) /\
  (fst dates = snd dates ->
   get server "createdDate"
   = documentedDefault filename (fst dates) "createdDate") /\
  get server "displayCode" = VStr (decodeEntities (trim contents)) /\
  (entityFree (trim contents) = true ->
   get server "displayCode" = VStr (trim contents)).
Proof.
  intros H server filename.
  assert (Hmd : readMetadata env contents = VObj []).
  { apply readMetadata_no_block. now apply frontMatterLoop_no_sentinel. }
  pose proof (empty_metadata_createdDate env dates contents filePath Hmd)
    as Hcreated.
  assert (Hcode : get server "displayCode"
                  = VStr (decodeEntities (trim contents))).
  { unfold server, parseCSharpMcpServer.
    cbn [get lookup String.eqb Ascii.eqb Bool.eqb].
    unfold extractCodeWithoutFrontMatter.
    now rewrite (afterFrontMatter_no_sentinel _ false H). }
  split; [|split; [exact Hcreated|split; [|split]]].
  - now apply empty_metadata_documented.
  - intros Hsame. unfold server. rewrite Hcreated, Hsame. reflexivity.
  - exact Hcode.
  - intros Hfree. rewrite Hcode.
    now rewrite (decodeEntities_fixes_entityFree _ Hfree).
Qed.

Lemma no_sentinel_defaults_and_decoded_code_witness :
  let e := Sample.env [] (Thrown "not called") in
  let contents := "  class Body { bool Less(int a, int b) =&gt; a &lt; b; }  " in
  let server := parseCSharpMcpServer e Sample.midnight contents "mcp/one.cs" in
  get server "id" = VStr "one" /\
  get server "createdDate" = VStr "2026-11-04" /\
  get server "displayCode"
  = VStr "class Body { bool Less(int a, int b) => a < b; }".
Proof.
  intros e contents server.
  destruct (no_sentinel_defaults_and_decoded_code e Sample.midnight contents
              "mcp/one.cs") as (Hfields & Hcreated & _ & Hcode & _).
  - intros l [<-|[]]. reflexivity.
  - split; [|split; [exact Hcreated|exact Hcode]].
    apply (Hfields "id"); [simpl; tauto|discriminate].
Defined.

(** C7, as stated, fails twice over for a file without a sentinel line:
    the display code is not the trimmed text when the text holds an
    entity, and [createdDate] is not its documented default, the
    resolved [lastUpdated], when the clock passes midnight between its
    two readings. *)
Lemma displayCode_decoded_without_sentinel :
  let e := Sample.env [] (Thrown "not called") in
  let contents := " a &lt; b " in
  let server := parseCSharpMcpServer e Sample.midnight contents "mcp/one.cs" in
  forallb (fun l => negb (isSentinelLine l)) (splitLines contents) = true /\
  trim contents = "a &lt; b" /\
  get server "displayCode" = VStr "a < b" /\
  get server "displayCode" <> VStr (trim contents) /\
  get server "lastUpdated" = VStr "2026-11-03" /\
  get server "createdDate" = VStr "2026-11-04" /\
  get server "createdDate"
  <> documentedDefault "one" "2026-11-03" "createdDate".
Proof. cbv zeta. repeat split; try reflexivity; discriminate. Qed.

(** ** The tool scanner *)

Lemma findMethod_first (window : list string) : forall j lj m,
  nth_error window j = Some lj -> methodName lj = Some m ->
  (forall j' lj', j' < j -> nth_error window j' = Some lj' ->
     methodName lj' = None) ->
  findMethod window = Some m.
Proof.
  induction window as [|l rest IH]; intros j lj m Hj Hm Hbefore.
  - destruct j; discriminate.
  - destruct j as [|j]; simpl in Hj.
    + inversion Hj; subst. simpl. now rewrite Hm.
    + simpl. rewrite (Hbefore 0 l); [|lia|reflexivity].
      apply (IH j lj m); auto.
      intros j' lj' Hlt Hn. apply (Hbefore (S j') lj'); [lia|exact Hn].
Qed.

Lemma findMethod_none (window : list string) :
  (forall j lj, nth_error window j = Some lj -> methodName lj = None) ->
  findMethod window = None.
Proof.
  induction window as [|l rest IH]; intros H; [reflexivity|].
  simpl. rewrite (H 0 l eq_refl). apply IH.
  intros j lj Hj. now apply (H (S j)).
Qed.

Lemma findMethod_some (window : list string) : forall j lj,
  nth_error window j = Some lj -> methodName lj <> None ->
  exists m, findMethod window <> None /\ findMethod window = Some m.
Proof.
  induction window as [|l rest IH]; intros j lj Hj Hm.
  - destruct j; discriminate.
  - simpl. destruct (methodName l) as [m|] eqn:E.
    + exists m; split; [discriminate|reflexivity].
    + destruct j as [|j]; simpl in Hj.
      * inversion Hj; subst; congruence.
      * eapply IH; eauto.
Qed.

(** The window of the occurrence at line [i]: lines [i + 1] to [i + 9]. *)
Lemma window_nth (lines : list string) (i j : nat) :
  nth_error (firstn 9 (skipn (S i) lines)) j
  = if (j <? 9)%nat then nth_error lines (S i + j) else None.
Proof. now rewrite nth_error_firstn, nth_error_skipn. Qed.

Lemma scanTools_emitted (lines : list string) : forall before,
  scanTools lines
  = flat_map (emittedAt (before ++ lines))
      (seq (List.length before) (List.length lines)).
Proof.
  induction lines as [|l rest IH]; intros before; [reflexivity|].
  cbn [scanTools List.length seq flat_map]. f_equal.
  - unfold emittedAt.
    rewrite nth_error_app2, Nat.sub_diag by lia. cbn [nth_error].
    change (S (List.length before)) with (1 + List.length before).
    rewrite <- skipn_skipn, skipn_app, skipn_all, Nat.sub_diag. reflexivity.
  - rewrite (IH (before ++ [l])), <- app_assoc, length_app.
    cbn [List.length app]. now rewrite Nat.add_1_r.
Qed.

(** The scanner's output is what its outer loop emits line by line. *)
Lemma extractTools_emitted (contents : string) :
  extractToolsFromCSharp contents
  = flat_map (emittedAt (splitLines contents))
      (seq 0 (List.length (splitLines contents))).
Proof. apply (scanTools_emitted (splitLines contents) []). Qed.

(** What the scanner does at a line carrying the attribute marker and a
    description call, in terms of the lines its own pattern of line 137
    accepts ([methodName]), which are not all the method signatures of
    the language: when the description pattern matches and the pattern
    accepts one of the nine following lines, exactly one descriptor is
    emitted, with the quoted description and the name captured on the
    first accepted line; when the description pattern does not match, or
    the pattern accepts no line of the window, nothing is emitted. *)
Theorem tool_occurrence_emits_one_or_none
  (contents : string) (i : nat) (l : string) :
  let lines := splitLines contents in
  nth_error lines i = Some l ->
  isToolAttributeLine l = true ->
  extractToolsFromCSharp contents
  = flat_map (emittedAt lines) (seq 0 (List.length lines)) /\
  (forall d j lj m,
     matchDescription (trim l) = Some d ->
     j < 9 -> nth_error lines (S i + j) = Some lj ->
     methodName lj = Some m ->
     (forall j' lj', j' < j -> nth_error lines (S i + j') = Some lj' ->
        methodName lj' = None) ->
     emittedAt lines i = [ {| name := m; description := d |} ]) /\
  (forall d j lj,
     matchDescription (trim l) = Some d ->
     j < 9 -> nth_error lines (S i + j) = Some lj ->
     methodName lj <> None ->
     exists m, emittedAt lines i = [ {| name := m; description := d |} ]) /\
  (matchDescription (trim l) = None \/
   (forall j lj, j < 9 -> nth_error lines (S i + j) = Some lj ->
      methodName lj = None) ->
   emittedAt lines i = []).
Proof.
  intros lines Hl Hattr.
  assert (Hunfold : emittedAt lines i
    = match matchDescription (trim l) with
      | Some d =>
          match findMethod (firstn 9 (skipn (S i) lines)) with
          | Some m => [ {| name := m; description := d |} ]
          | None => []
          end
      | None => []
      end).
  { unfold emittedAt, toolsAt. rewrite Hl.
    unfold isToolAttributeLine in Hattr. now rewrite Hattr. }
  split; [apply extractTools_emitted|].
  rewrite Hunfold. split; [|split].
  - intros d j lj m Hd Hj Hlj Hm Hbefore. rewrite Hd.
    rewrite (findMethod_first _ j lj m); auto.
    + rewrite window_nth. apply Nat.ltb_lt in Hj. now rewrite Hj.
    + intros j' lj' Hlt Hn. rewrite window_nth in Hn.
      destruct (j' <? 9)%nat; [|discriminate]. eauto.
  - intros d j lj Hd Hj Hlj Hm. rewrite Hd.
    destruct (findMethod_some (firstn 9 (skipn (S i) lines)) j lj)
      as (m & _ & Hfound); auto.
    + rewrite window_nth. apply Nat.ltb_lt in Hj. now rewrite Hj.
    + exists m. now rewrite Hfound.
  - intros [Hd|Hnone]; [now rewrite Hd|].
    rewrite findMethod_none; [now destruct (matchDescription (trim l))|].
    intros j lj Hn. rewrite window_nth in Hn.
    destruct (j <? 9)%nat eqn:E; [|discriminate].
    apply Nat.ltb_lt in E. eauto.
Qed.

Lemma tool_occurrence_emits_one_or_none_sample :
  extractToolsFromCSharp Sample.toolFile
  = [ {| name := "DoX"; description := "Does X" |} ] /\
  emittedAt (splitLines Sample.toolFile) 0
  = [ {| name := "DoX"; description := "Does X" |} ].
Proof.
  split; [reflexivity|].
  destruct (tool_occurrence_emits_one_or_none Sample.toolFile 0
              (nth 0 (splitLines Sample.toolFile) ""))
    as (_ & Hone & _); [reflexivity|reflexivity|].
  apply (Hone "Does X" 1 "    public static string DoX(int times)" "DoX");
    try reflexivity; [lia|].
  intros j' lj' Hlt Hn. assert (j' = 0) by lia; subst j'.
  inversion Hn; reflexivity.
Defined.

(** C5.  The scanner departs from the claim on the repository's own
    [mcp/date-times-mcp.cs].  The line after the second attribute is a
    public static method signature, [DateDifference], but it returns a
    tuple and the pattern of line 137 wants a single word for the return
    type: the line is passed over, the scan goes on through the window,
    and the descriptor emitted for that attribute carries the name of
    the next method, [AddTime], eight lines below the attribute. *)
Lemma tuple_return_signature_is_passed_over :
  let lines := splitLines Sample.dateTimesTools in
  isToolAttributeLine (nth 6 lines "") = true /\
  matchDescription (trim (nth 6 lines ""))
  = Some "Calculates the difference between two dates" /\
  nth 7 lines ""
  = "    public static (int days, int hours, int minutes) DateDifference(DateTime startDate, DateTime endDate)" /\
  methodName (nth 7 lines "") = None /\
  methodName (nth 14 lines "") = Some "AddTime" /\
  emittedAt lines 6
  = [ {| name := "AddTime";
         description := "Calculates the difference between two dates" |} ] /\
  extractToolsFromCSharp Sample.dateTimesTools
  = [ {| name := "GetCurrentDateTime";
         description := "Gets current date and time in various formats" |};
      {| name := "AddTime";
         description := "Calculates the difference between two dates" |};
      {| name := "AddTime";
         description := "Adds or subtracts time from a date" |} ].
Proof. vm_compute. repeat split; reflexivity. Qed.

(** ** Object properties *)

Section Properties.

Lemma lookup_replaceProp_same (k : string) (v : value) (o : obj) :
  lookup k (replaceProp k v o)
  = match lookup k o with Some _ => Some v | None => None end.
Proof.
  induction o as [|[k' v'] o IH]; [reflexivity|].
  simpl. destruct (String.eqb k' k) eqn:E; simpl.
  - now rewrite String.eqb_refl.
  - now rewrite E.
Qed.

Lemma lookup_replaceProp_other (f k : string) (v : value) (o : obj) :
  f <> k -> lookup f (replaceProp k v o) = lookup f o.
Proof.
  intros Hf. induction o as [|[k' v'] o IH]; [reflexivity|].
  simpl. destruct (String.eqb k' k) eqn:E; simpl.
  - apply String.eqb_eq in E; subst k'.
    apply not_eq_sym, String.eqb_neq in Hf. now rewrite Hf.
  - now rewrite IH.
Qed.

Lemma lookup_insertIndex_same (n : N) (k : string) (v : value) (o : obj) :
  lookup k o = None -> lookup k (insertIndex n k v o) = Some v.
Proof.
  induction o as [|[k' v'] o IH]; intros H; simpl.
  - now rewrite String.eqb_refl.
  - simpl in H. destruct (String.eqb k' k) eqn:E; [discriminate|].
    destruct (arrayIndex k') as [n'|]; [destruct (n <? n')%N|]; simpl;
      rewrite ?String.eqb_refl, ?E; auto.
Qed.

Lemma lookup_insertIndex_other (f : string) (n : N) (k : string) (v : value)
  (o : obj) :
  f <> k -> lookup f (insertIndex n k v o) = lookup f o.
Proof.
  intros Hf. apply not_eq_sym, String.eqb_neq in Hf.
  induction o as [|[k' v'] o IH]; simpl.
  - now rewrite Hf.
  - destruct (arrayIndex k') as [n'|]; [destruct (n <? n')%N|]; simpl;
      rewrite ?Hf; auto.
    now rewrite IH.
Qed.

Lemma lookup_app_last (f k : string) (v : value) (o : obj) :
  lookup f (o ++ [(k, v)])
  = match lookup f o with
    | Some x => Some x
    | None => if String.eqb k f then Some v else None
    end.
Proof.
  induction o as [|[k' v'] o IH]; [reflexivity|].
  simpl. now destruct (String.eqb k' f).
Qed.

(** Reading back what was set. *)
Lemma lookup_setProp_same (o : obj) (k : string) (v : value) :
  lookup k (setProp o k v) = Some v.
Proof.
  unfold setProp, hasProp. destruct (lookup k o) eqn:E.
  - now rewrite lookup_replaceProp_same, E.
  - destruct (arrayIndex k).
    + now apply lookup_insertIndex_same.
    + now rewrite lookup_app_last, E, String.eqb_refl.
Qed.

(** Setting one property leaves the others as they were. *)
Lemma lookup_setProp_other (o : obj) (f k : string) (v : value) :
  f <> k -> lookup f (setProp o k v) = lookup f o.
Proof.
  intros Hf. unfold setProp. destruct (hasProp k o).
  - now apply lookup_replaceProp_other.
  - destruct (arrayIndex k).
    + now apply lookup_insertIndex_other.
    + rewrite lookup_app_last. apply not_eq_sym, String.eqb_neq in Hf.
      rewrite Hf. now destruct (lookup f o).
Qed.

Lemma lookup_not_in (k : string) (o : obj) :
  ~ In k (map fst o) -> lookup k o = None.
Proof.
  induction o as [|[k' v'] o IH]; intros H; [reflexivity|].
  simpl in *. destruct (String.eqb k' k) eqn:E.
  - apply String.eqb_eq in E. tauto.
  - apply IH. tauto.
Qed.

(** A spread copies every property of its operand over whatever the
    literal had defined before it. *)
Lemma lookup_spread (entries : obj) : forall (init : obj) (f : string),
  NoDup (map fst entries) ->
  lookup f (fold_left (fun o kv => setProp o (fst kv) (snd kv)) entries init)
  = match lookup f entries with
    | Some x => Some x
    | None => lookup f init
    end.
Proof.
  induction entries as [|[k v] rest IH]; intros init f Hnd; [reflexivity|].
  inversion Hnd as [|? ? Hk Hrest]; subst.
  cbn [fold_left fst snd]. rewrite IH by assumption.
  cbn [lookup]. destruct (String.eqb k f) eqn:E.
  - apply String.eqb_eq in E; subst f.
    now rewrite (lookup_not_in k rest Hk), lookup_setProp_same.
  - apply String.eqb_neq in E.
    rewrite lookup_setProp_other by congruence. reflexivity.
Qed.

(** Setting a property adds at most that entry. *)
Lemma in_setProp (o : obj) (k : string) (v : value) (k' : string) (v' : value) :
  In (k', v') (setProp o k v) -> (k', v') = (k, v) \/ In (k', v') o.
Proof.
  unfold setProp. destruct (hasProp k o).
  - induction o as [|[k0 v0] o IH]; simpl; [tauto|].
    destruct (String.eqb k0 k); simpl; intros [H|H]; auto.
    destruct (IH H); auto.
  - destruct (arrayIndex k) as [n|].
    + induction o as [|[k0 v0] o IH]; simpl; [intuition congruence|].
      destruct (arrayIndex k0) as [n0|]; [destruct (n <? n0)%N|]; simpl;
        intros [H|H]; auto.
      destruct (IH H); auto.
    + intros H. apply in_app_or in H. destruct H as [H|[H|[]]]; auto.
Qed.

End Properties.

(** ** The assembler *)

(** C6, as amended.  [toList] produces one record per entry of the
    mapping, in the mapping's iteration order; each record has the
    properties of the entry's value, and the key supplies [id] only when
    the value has no [id] of its own: an [id] present in the value
    overwrites the key. *)
Theorem toList_keeps_value_id (serversData : obj) :
  List.length (toList serversData) = List.length serversData /\
  (forall i key props,
     nth_error serversData i = Some (key, VObj props) ->
     NoDup (map fst props) ->
     exists record,
       nth_error (toList serversData) i = Some (VObj record) /\
       (forall field, field <> "id" ->
          lookup field record = lookup field props) /\
       lookup "id" record
       = Some (match lookup "id" props with
               | Some own => own
               | None => VStr key
               end)).
Proof.
  split; [apply length_map|].
  intros i key props Hi Hnd.
  exists (spread [("id", VStr key)] (VObj props)).
  split; [|split].
  - unfold toList. rewrite nth_error_map, Hi. reflexivity.
  - intros field Hf. unfold spread. cbn [ownEntries].
    rewrite lookup_spread by assumption.
    destruct (lookup field props); [reflexivity|].
    cbn [lookup]. apply not_eq_sym, String.eqb_neq in Hf. now rewrite Hf.
  - unfold spread. cbn [ownEntries]. rewrite lookup_spread by assumption.
    now destruct (lookup "id" props).
Qed.

(** C6, as stated, fails: the spread comes after [id: key] in the
    literal, so the value's own [id] replaces the key. *)
Lemma toList_key_does_not_overwrite :
  toList [("a", VObj [("id", VStr "b"); ("name", VStr "b.cs")])]
  = [VObj [("id", VStr "b"); ("name", VStr "b.cs")]] /\
  get (nth 0 (toList [("a", VObj [("id", VStr "b"); ("name", VStr "b.cs")])])
         VUndefined) "id" <> VStr "a".
Proof. split; [reflexivity|discriminate]. Qed.

(** ** The directory scan *)

Section Scan.

Variable env : Env.

(** The loop over a list of files is the loop over its first part
    followed, unless that threw, by the loop over the rest. *)
Lemma loadFiles_app (before after : list string) : forall i store,
  loadFiles env i (before ++ after) store
  = match loadFiles env i before store with
    | (store', Returned _) =>
        loadFiles env (i + List.length before) after store'
    | (store', Thrown e) => (store', Thrown e)
    end.
Proof.
  induction before as [|f rest IH]; intros i store.
  - cbn. now rewrite Nat.add_0_r.
  - cbn [app loadFiles List.length]. unfold bind.
    destruct (loadFile env i f store) as [store' [[]|e]]; [|reflexivity].
    rewrite IH. now rewrite Nat.add_succ_r.
Qed.

(** A file that cannot be read leaves the store as it was. *)
Lemma loadFile_unreadable (i : nat) (file message : string) (store : obj) :
  readFileSync env (join env (mcpDir env) file) = Thrown message ->
  loadFile env i file store = (store, Thrown message).
Proof. intros H. unfold loadFile, bind, call. now rewrite H. Qed.

(** One step of the loop: it throws and leaves the store as it was, or
    it read the file, made its id a key and stored the record, unless
    the key is [__proto__]. *)
Lemma loadFile_cases (i : nat) (file : string) (store : obj) :
  (exists e, loadFile env i file store = (store, Thrown e)) \/
  (exists contents,
     let record :=
       parseCSharpMcpServer env (today env i) contents
         (join env (mcpDir env) file) in
     readFileSync env (join env (mcpDir env) file) = Returned contents /\
     convertible (get record "id") = true /\
     loadFile env i file store
     = (if String.eqb (toString (get record "id")) "__proto__" then store
        else setProp store (toString (get record "id")) record,
        Returned tt)).
Proof.
  unfold loadFile, bind, call, assign.
  destruct (readFileSync env (join env (mcpDir env) file)) as [contents|e];
    [|left; now exists e].
  destruct (convertible _) eqn:Econv.
  - right. exists contents. cbv zeta. now rewrite Econv.
  - left. eexists. reflexivity.
Qed.

Lemma loadFile_scanned (i : nat) (file : string) (store : obj) :
  scanned env store -> scanned env (fst (loadFile env i file store)).
Proof.
  intros Hinv.
  destruct (loadFile_cases i file store)
    as [[e ->]|(contents & Hread & Hconv & ->)]; [exact Hinv|].
  cbn [fst].
  destruct (String.eqb _ "__proto__"); [exact Hinv|].
  intros k r Hin. apply in_setProp in Hin. destruct Hin as [Hin|Hin].
  - inversion Hin; subst. split; [|reflexivity].
    now exists (today env i), contents, (join env (mcpDir env) file).
  - now apply Hinv.
Qed.

Lemma loadFiles_scanned (files : list string) : forall i store,
  scanned env store -> scanned env (fst (loadFiles env i files store)).
Proof.
  induction files as [|f rest IH]; intros i store Hinv; [exact Hinv|].
  cbn [loadFiles]. unfold bind.
  pose proof (loadFile_scanned i f store Hinv) as Hstep.
  destruct (loadFile env i f store) as [store' [[]|e]]; cbn [fst] in *.
  - now apply IH.
  - exact Hstep.
Qed.

(** What the default export returns is the store the block under [try]
    left behind, whether it returned or threw. *)
Lemma servers_returns_store :
  servers env = Returned (fst (loadServers env [])).
Proof.
  unfold servers, bind, tryCatch, ret.
  now destruct (loadServers env []) as [store [[]|e]].
Qed.

(** The assembler gives back a parsed record as it is: the record's own
    [id] is its first property, and the spread puts it back over the
    key. *)
Lemma spread_parsed_record (key : string) (dates : string * string)
  (contents filePath : string) :
  VObj (spread [("id", VStr key)]
          (parseCSharpMcpServer env dates contents filePath))
  = parseCSharpMcpServer env dates contents filePath.
Proof. reflexivity. Qed.

End Scan.

(** C1, as amended.  When reading a discovered file fails partway
    through the scan, the handler around the loop catches the failure:
    the scan stops there and returns the mapping built from the files
    processed before the unreadable one. *)
Theorem read_failure_returns_partial_mapping
  (env : Env) (listed before after : list string) (file message : string) :
  readdirSync env (mcpDir env) = Returned listed ->
  filter (fun f => String.eqb (extname env f) ".cs") listed
  = before ++ file :: after ->
  (forall f, In f before ->
     exists contents,
       readFileSync env (join env (mcpDir env) f) = Returned contents) ->
  readFileSync env (join env (mcpDir env) file) = Thrown message ->
  servers env = Returned (fst (loadFiles env 0 before [])).
Proof.
  intros Hdir Hfiles Hbefore Hread.
  rewrite servers_returns_store. f_equal.
  unfold loadServers, bind, call. rewrite Hdir, Hfiles, loadFiles_app.
  destruct (loadFiles env 0 before []) as [store [[]|e]]; [|reflexivity].
  cbn [loadFiles]. unfold bind.
  now rewrite (loadFile_unreadable env _ file message store Hread).
Qed.

Lemma read_failure_returns_partial_mapping_witness :
  let e := Sample.env [("a.cs", Returned "class A {}");
                       ("notes.txt", Returned "skipped");
                       ("b.cs", Thrown "EACCES");
                       ("c.cs", Returned "class C {}")]
             (Thrown "not called") in
  servers e = Returned (fst (loadFiles e 0 ["a.cs"] [])).
Proof.
  intros e.
  apply (read_failure_returns_partial_mapping e
           ["a.cs"; "notes.txt"; "b.cs"; "c.cs"] ["a.cs"] ["c.cs"] "b.cs"
           "EACCES"); try reflexivity.
  intros f [<-|[]]. exists "class A {}". reflexivity.
Defined.

(** C1, as stated, fails: the failure does not leave the scan, and a
    mapping is returned; it holds the file read before the unreadable one
    and not the file after it. *)
Lemma read_failure_is_caught :
  let e := Sample.env [("a.cs", Returned "class A {}");
                       ("b.cs", Thrown "EACCES");
                       ("c.cs", Returned "class C {}")]
             (Thrown "not called") in
  readFileSync e (join e (mcpDir e) "b.cs") = Thrown "EACCES" /\
  exists serversData,
    servers e = Returned serversData /\
    map fst serversData = ["a"] /\
    get (get (VObj serversData) "a") "code" = VStr "class A {}".
Proof.
  cbv zeta. split; [reflexivity|].
  eexists. split; [reflexivity|]. split; reflexivity.
Qed.

(** C10, as amended.  At every point of the scan and in the mapping it
    returns, the record stored under a key [k] was built by the parser
    and has an [id] whose string form is [k], so the two are the same
    whenever the [id] is a string; and the assembler returns every such
    record as it is stored. *)
Theorem stored_under_id_string (env : Env) :
  (forall i files store,
     scanned env store -> scanned env (fst (loadFiles env i files store))) /\
  (forall before after store,
     loadFiles env 0 (before ++ after) [] = (store, Returned tt) ->
     exists mid,
       loadFiles env 0 before [] = (mid, Returned tt) /\ scanned env mid) /\
  (forall serversData,
     servers env = Returned serversData ->
     scanned env serversData /\
     (forall k r s, In (k, r) serversData -> get r "id" = VStr s -> k = s) /\
     toList serversData = map snd serversData).
Proof.
  assert (Hempty : scanned env []) by (intros k r []).
  split; [|split].
  - intros i files store. apply loadFiles_scanned.
  - intros before after store Hrun. rewrite loadFiles_app in Hrun.
    pose proof (loadFiles_scanned env before 0 [] Hempty) as Hmid.
    destruct (loadFiles env 0 before []) as [mid [[]|e]]; [|discriminate].
    exists mid. split; [reflexivity|exact Hmid].
  - intros serversData Hret. rewrite servers_returns_store in Hret.
    inversion Hret as [Hstore]. clear Hret.
    assert (Hinv : scanned env (fst (loadServers env []))).
    { unfold loadServers, bind, call.
      destruct (readdirSync env (mcpDir env)) as [files|e]; [|exact Hempty].
      now apply loadFiles_scanned. }
    split; [exact Hinv|split].
    + intros k r s Hin Hid. destruct (Hinv k r Hin) as [_ Hk].
      now rewrite Hid in Hk.
    + unfold toList. apply map_ext_in. intros [k r] Hin.
      destruct (Hinv k r Hin) as [(dates & contents & filePath & ->) _].
      apply spread_parsed_record.
Qed.

(** C10, as stated, fails: an [id] that decodes as a number is kept as a
    number in the record, while the key it is stored under is a string. *)
Lemma numeric_id_differs_from_key :
  let contents := Sample.withBlock "id: 2024" "class Body {}" in
  let e := Sample.env [("year.cs", Returned contents)]
             (Returned (VObj [("id", VNum 2024)])) in
  exists record,
    servers e = Returned [("2024", record)] /\
    get record "id" = VNum 2024 /\
    get record "id" <> VStr "2024" /\
    toList [("2024", record)] = [record].
Proof.
  cbv zeta. eexists. split; [reflexivity|].
  split; [reflexivity|]. split; [discriminate|reflexivity].
Qed.

(** * Further properties of the scan *)

Section ScanFacts.

Variable env : Env.

Lemma lookup_none_not_in (k : string) (o : obj) :
  lookup k o = None -> ~ In k (map fst o).
Proof.
  induction o as [|[k' v'] o IH]; simpl; [tauto|].
  destruct (String.eqb k' k) eqn:E; [discriminate|].
  apply String.eqb_neq in E. intros H [Hk|Hin]; [congruence|now apply IH].
Qed.

Lemma keys_replaceProp (k : string) (v : value) (o : obj) :
  map fst (replaceProp k v o) = map fst o.
Proof.
  induction o as [|[k' v'] o IH]; [reflexivity|].
  simpl. destruct (String.eqb k' k) eqn:E; simpl.
  - apply String.eqb_eq in E. now subst.
  - now rewrite IH.
Qed.

Lemma keys_insertIndex (n : N) (k : string) (v : value) (o : obj) :
  exists front back,
    map fst o = front ++ back /\
    map fst (insertIndex n k v o) = front ++ k :: back.
Proof.
  induction o as [|[k' v'] o IH]; simpl.
  - now exists [], [].
  - destruct (arrayIndex k') as [n'|]; [destruct (n <? n')%N|].
    + now exists [], (k' :: map fst o).
    + destruct IH as (front & back & E1 & E2).
      exists (k' :: front), back. simpl. now rewrite E1, E2.
    + now exists [], (k' :: map fst o).
Qed.

(** Setting a property keeps the keys of an object pairwise distinct. *)
Lemma setProp_nodup (o : obj) (k : string) (v : value) :
  NoDup (map fst o) -> NoDup (map fst (setProp o k v)).
Proof.
  intros Hnd. unfold setProp, hasProp.
  destruct (lookup k o) eqn:E.
  - now rewrite keys_replaceProp.
  - apply lookup_none_not_in in E. destruct (arrayIndex k) as [n|].
    + destruct (keys_insertIndex n k v o) as (front & back & E1 & E2).
      rewrite E2. rewrite E1 in Hnd, E.
      apply (Permutation.Permutation_NoDup (l := k :: front ++ back));
        [apply Permutation.Permutation_middle|now constructor].
    + rewrite map_app. cbn [map fst].
      apply (Permutation.Permutation_NoDup (l := k :: map fst o)).
      * change (k :: map fst o) with ([k] ++ map fst o).
        apply Permutation.Permutation_app_comm.
      * now constructor.
Qed.

Lemma setProp_length (o : obj) (k : string) (v : value) :
  List.length (setProp o k v) <= S (List.length o).
Proof.
  rewrite <- (length_map fst (setProp o k v)), <- (length_map fst o).
  unfold setProp. destruct (hasProp k o).
  - rewrite keys_replaceProp. lia.
  - destruct (arrayIndex k) as [n|].
    + destruct (keys_insertIndex n k v o) as (front & back & -> & ->).
      rewrite !length_app. simpl. lia.
    + rewrite map_app, length_app. simpl. lia.
Qed.

(** The record the scan builds for the file at position [i], and what
    one step of the loop does with it. *)
Let recordOf (i : nat) (file contents : string) : value :=
  parseCSharpMcpServer env (today env i) contents (join env (mcpDir env) file).

Lemma loadFile_readable (i : nat) (file contents : string) (store : obj) :
  readFileSync env (join env (mcpDir env) file) = Returned contents ->
  convertible (get (recordOf i file contents) "id") = true ->
  loadFile env i file store
  = (if String.eqb (idString (recordOf i file contents)) "__proto__"
     then store
     else setProp store (idString (recordOf i file contents))
            (recordOf i file contents),
     Returned tt).
Proof.
  intros H Hconv. unfold loadFile, bind, call, assign. rewrite H.
  fold (recordOf i file contents). now rewrite Hconv.
Qed.

(** A record whose id cannot be made a key is not stored: the
    assignment throws. *)
Lemma loadFile_unconvertible (i : nat) (file contents : string) (store : obj) :
  readFileSync env (join env (mcpDir env) file) = Returned contents ->
  convertible (get (recordOf i file contents) "id") = false ->
  loadFile env i file store
  = (store, Thrown "TypeError: Cannot convert object to primitive value").
Proof.
  intros H Hconv. unfold loadFile, bind, call, assign. rewrite H.
  fold (recordOf i file contents). now rewrite Hconv.
Qed.

Lemma loadFile_nodup (i : nat) (file : string) (store : obj) :
  NoDup (map fst store) ->
  NoDup (map fst (fst (loadFile env i file store))).
Proof.
  intros Hnd.
  destruct (loadFile_cases env i file store)
    as [[e ->]|(contents & _ & _ & ->)]; [exact Hnd|].
  cbn [fst].
  destruct (String.eqb _ "__proto__"); [exact Hnd|now apply setProp_nodup].
Qed.

Lemma loadFile_length (i : nat) (file : string) (store : obj) :
  List.length (fst (loadFile env i file store)) <= S (List.length store).
Proof.
  destruct (loadFile_cases env i file store)
    as [[e ->]|(contents & _ & _ & ->)]; [simpl; lia|].
  cbn [fst].
  destruct (String.eqb _ "__proto__"); [lia|apply setProp_length].
Qed.

Lemma loadFiles_nodup (files : list string) : forall i store,
  NoDup (map fst store) ->
  NoDup (map fst (fst (loadFiles env i files store))).
Proof.
  induction files as [|f rest IH]; intros i store Hnd; [exact Hnd|].
  cbn [loadFiles]. unfold bind.
  pose proof (loadFile_nodup i f store Hnd) as Hstep.
  destruct (loadFile env i f store) as [store' [[]|e]]; cbn [fst] in *;
    [now apply IH|exact Hstep].
Qed.

Lemma loadFiles_length (files : list string) : forall i store,
  List.length (fst (loadFiles env i files store))
  <= List.length store + List.length files.
Proof.
  induction files as [|f rest IH]; intros i store; [simpl; lia|].
  cbn [loadFiles]. unfold bind.
  pose proof (loadFile_length i f store) as Hstep.
  destruct (loadFile env i f store) as [store' [[]|e]]; cbn [fst] in *.
  - specialize (IH (S i) store'). simpl. lia.
  - simpl. lia.
Qed.

(** The scan's result in terms of the listing. *)
Lemma servers_of_listing (listed : list string) :
  readdirSync env (mcpDir env) = Returned listed ->
  servers env = Returned (fst (loadFiles env 0 (csFiles env listed) [])).
Proof.
  intros H. rewrite servers_returns_store. f_equal.
  unfold loadServers, bind, call. now rewrite H.
Qed.

Lemma loadServers_nodup : NoDup (map fst (fst (loadServers env []))).
Proof.
  unfold loadServers, bind, call.
  destruct (readdirSync env (mcpDir env)) as [files|e]; [|constructor].
  apply loadFiles_nodup. constructor.
Qed.

Lemma loadServers_scanned : scanned env (fst (loadServers env [])).
Proof.
  unfold loadServers, bind, call.
  destruct (readdirSync env (mcpDir env)) as [files|e].
  - apply loadFiles_scanned. intros k r [].
  - intros k r [].
Qed.

(** X1.  When the directory cannot be listed, the scan does not fail: it
    returns the empty mapping, and the assembler the empty list. *)
Theorem unreadable_directory_gives_empty_catalog (message : string) :
  readdirSync env (mcpDir env) = Thrown message ->
  servers env = Returned [] /\ serversArray env = Returned [].
Proof.
  intros H.
  assert (Hs : servers env = Returned []).
  { rewrite servers_returns_store. f_equal.
    unfold loadServers, bind, call. now rewrite H. }
  split; [exact Hs|]. unfold serversArray. now rewrite Hs.
Qed.

(** X2.  Whatever the file system and the decoder do, the scan and the
    assembler return.  The list has one record per key of the mapping,
    in the same order; the string form of each record's id is its key,
    and these are pairwise distinct. *)
Theorem catalog_ids_are_distinct_keys :
  exists serversData records,
    servers env = Returned serversData /\
    serversArray env = Returned records /\
    map idString records = map fst serversData /\
    NoDup (map idString records).
Proof.
  exists (fst (loadServers env [])), (toList (fst (loadServers env []))).
  pose proof loadServers_scanned as Hinv.
  assert (Hids : map idString (toList (fst (loadServers env [])))
                 = map fst (fst (loadServers env []))).
  { unfold toList. rewrite map_map. apply map_ext_in. intros [k r] Hin.
    destruct (Hinv k r Hin) as [(dates & contents & filePath & ->) Hk].
    cbn [fst snd]. rewrite spread_parsed_record. exact Hk. }
  split; [apply servers_returns_store|]. split; [|split].
  - unfold serversArray. now rewrite servers_returns_store.
  - exact Hids.
  - rewrite Hids. apply loadServers_nodup.
Qed.

(** X3.  The mapping has at most one entry per listed file with the
    extension [.cs]: files with another extension add nothing, and a
    listing without such a file gives the empty mapping. *)
Theorem catalog_size_bounded_by_cs_files (listed : list string) :
  readdirSync env (mcpDir env) = Returned listed ->
  exists serversData,
    servers env = Returned serversData /\
    List.length serversData <= List.length (csFiles env listed) /\
    (csFiles env listed = [] -> serversData = []).
Proof.
  intros H. exists (fst (loadFiles env 0 (csFiles env listed) [])).
  split; [now apply servers_of_listing|]. split.
  - apply (loadFiles_length (csFiles env listed) 0 []).
  - now intros ->.
Qed.

(** X4.  One step of the scan on a readable file.  When the id of its
    record cannot be made a key (a mapping with an own [toString], or a
    sequence holding one), the assignment throws and the store is left
    as it was.  Otherwise, for an id in the domain of the model whose
    string form is not [__proto__], the step returns normally; the
    record is afterwards found under the string form of its id, whatever
    was stored there before; every other key keeps its record; and when
    the key was already present, the keys and their order are unchanged,
    so a later file with the same id silently replaces the earlier one
    in place. *)
Theorem loadFile_stores_under_id
  (i : nat) (file contents : string) (store : obj) :
  readFileSync env (join env (mcpDir env) file) = Returned contents ->
  let record := recordOf i file contents in
  let store' := fst (loadFile env i file store) in
  (convertible (get record "id") = false ->
   store' = store /\
   exists e, snd (loadFile env i file store) = Thrown e) /\
  (convertible (get record "id") = true ->
   keyDomain (get record "id") = true ->
   idString record <> "__proto__" ->
   snd (loadFile env i file store) = Returned tt /\
   lookup (idString record) store' = Some record /\
   (forall k, k <> idString record -> lookup k store' = lookup k store) /\
   (hasProp (idString record) store = true ->
      map fst store' = map fst store)).
Proof.
  intros Hread record store'. subst record store'. split.
  - intros Hconv.
    rewrite (loadFile_unconvertible i file contents store Hread Hconv).
    split; [reflexivity|]. eexists. reflexivity.
  - intros Hconv _ Hproto.
    rewrite (loadFile_readable i file contents store Hread Hconv).
    cbn [fst snd].
    apply String.eqb_neq in Hproto. rewrite Hproto.
    split; [reflexivity|]. split; [apply lookup_setProp_same|]. split.
    + intros k Hk. now apply lookup_setProp_other.
    + intros Hhas. unfold setProp. rewrite Hhas. apply keys_replaceProp.
Qed.

End ScanFacts.

Lemma unreadable_directory_gives_empty_catalog_witness :
  let e := withReadFileSync (Sample.env [] (Thrown "not called"))
             (fun _ => Thrown "ENOENT") in
  let missing :=
    {| mcpDir := "mcp";
       readdirSync := fun _ => Thrown "ENOENT: no such file or directory";
       readFileSync := readFileSync e;
       extname := extname e;
       basename := basename e;
       join := join e;
       parseYaml := parseYaml e;
       today := today e |} in
  servers missing = Returned [] /\ serversArray missing = Returned [].
Proof.
  intros e missing.
  apply (unreadable_directory_gives_empty_catalog missing
           "ENOENT: no such file or directory").
  reflexivity.
Defined.

Lemma catalog_size_bounded_by_cs_files_witness :
  let e := Sample.env [("a.cs", Returned "class A {}");
                       ("README.md", Returned "# notes");
                       ("copy-of-a.cs", Returned "class A {}")]
             (Thrown "not called") in
  exists serversData,
    servers e = Returned serversData /\
    List.length serversData <= 2 /\
    (csFiles e ["a.cs"; "README.md"; "copy-of-a.cs"] = [] -> serversData = []).
Proof.
  intros e.
  apply (catalog_size_bounded_by_cs_files e
           ["a.cs"; "README.md"; "copy-of-a.cs"]).
  reflexivity.
Defined.

Lemma loadFile_stores_under_id_witness :
  let contents := Sample.withBlock "id: shared" "class Second {}" in
  let e := Sample.env [("first.cs", Returned contents);
                       ("second.cs", Returned contents)]
             (Returned (VObj [("id", VStr "shared")])) in
  let earlier := fst (loadFile e 0 "first.cs" []) in
  let later := fst (loadFile e 1 "second.cs" earlier) in
  map fst later = ["shared"] /\
  get (get (VObj later) "shared") "name" = VStr "second.cs".
Proof.
  intros contents e earlier later.
  destruct (loadFile_stores_under_id e 1 "second.cs" contents earlier)
    as (_ & Hstored); [reflexivity|].
  destruct Hstored as (_ & Hfound & _ & Hkeys);
    [reflexivity|reflexivity|discriminate|].
  split.
  - exact (Hkeys eq_refl).
  - cbn [get]. fold later in Hfound.
    change (lookup "shared" later
            = Some (parseCSharpMcpServer e (today e 1) contents
                      "mcp/second.cs")) in Hfound.
    rewrite Hfound. reflexivity.
Defined.

(** A step of the scan reads only the file it is given. *)
Lemma loadFile_same_read (env : Env) (read : string -> result string)
  (i : nat) (file : string) (store : obj) :
  read (join env (mcpDir env) file)
  = readFileSync env (join env (mcpDir env) file) ->
  loadFile (withReadFileSync env read) i file store
  = loadFile env i file store.
Proof.
  intros H. unfold loadFile, bind, call. cbn [withReadFileSync readFileSync join mcpDir].
  rewrite H. reflexivity.
Qed.

Lemma loadFiles_same_reads (env : Env) (read : string -> result string)
  (files : list string) : forall i store,
  (forall f, In f files ->
     read (join env (mcpDir env) f)
     = readFileSync env (join env (mcpDir env) f)) ->
  loadFiles (withReadFileSync env read) i files store
  = loadFiles env i files store.
Proof.
  induction files as [|f rest IH]; intros i store H; [reflexivity|].
  cbn [loadFiles]. unfold bind.
  rewrite (loadFile_same_read env read i f store (H f (or_introl eq_refl))).
  destruct (loadFile env i f store) as [store' [[]|e]]; [|reflexivity].
  apply IH. intros f' Hin. apply H. now right.
Qed.

(** X5.  The scan reads the listed files with the extension [.cs] and
    no other: changing what any other path holds, or whether it can be
    read at all, leaves the mapping as it is. *)
Theorem catalog_depends_on_cs_files_only
  (env : Env) (read : string -> result string) (listed : list string) :
  readdirSync env (mcpDir env) = Returned listed ->
  (forall f, In f (csFiles env listed) ->
     read (join env (mcpDir env) f)
     = readFileSync env (join env (mcpDir env) f)) ->
  servers (withReadFileSync env read) = servers env.
Proof.
  intros Hdir Hsame.
  rewrite (servers_of_listing env listed Hdir).
  rewrite (servers_of_listing (withReadFileSync env read) listed Hdir).
  f_equal. f_equal.
  apply (loadFiles_same_reads env read (csFiles env listed) 0 [] Hsame).
Qed.

Lemma catalog_depends_on_cs_files_only_witness :
  let e := Sample.env [("a.cs", Returned "class A {}");
                       ("notes.txt", Returned "plain text")]
             (Thrown "not called") in
  let read := fun path =>
    if String.eqb path "mcp/notes.txt" then Thrown "EACCES"
    else readFileSync e path in
  servers (withReadFileSync e read) = servers e.
Proof.
  intros e read.
  apply (catalog_depends_on_cs_files_only e read ["a.cs"; "notes.txt"]).
  - reflexivity.
  - intros f [<-|[]]. reflexivity.
Defined.

(** * Further properties of the record *)

Section RecordFacts.

Variables (env : Env) (dates : string * string) (contents filePath : string).

Let metadata : value := readMetadata env contents.
Let server : value := parseCSharpMcpServer env dates contents filePath.
Let filename : string := basename env filePath ".cs".

Ltac field_of_record :=
  unfold server, parseCSharpMcpServer; fold metadata;
  cbn [get lookup String.eqb Ascii.eqb Bool.eqb].

Lemma truthy_orElse (a d : value) :
  truthy d = true -> truthy (orElse a d) = true.
Proof. intros H. unfold orElse. now destruct (truthy a) eqn:E. Qed.

(** A decoded value with none of the fields gives the record of the
    empty mapping. *)
Lemma no_field_defaults :
  (forall field, get metadata field = VUndefined) ->
  forall field, In field metadataFields ->
    get server field = defaultValue filename dates field.
Proof.
  intros Hnone field Hin. unfold metadataFields in Hin.
  repeat (destruct Hin as [<-|Hin];
          [field_of_record; rewrite !Hnone; reflexivity|]).
  destruct Hin.
Qed.

(** X6.  When the block decodes to something that is not a mapping (a
    scalar, a sequence, or an empty document), no field is read from it:
    every metadata field of the record takes its default. *)
Theorem non_mapping_document_gives_defaults (doc : value) :
  frontMatterLines contents <> [] ->
  parseYaml env (joinLines (frontMatterLines contents)) = Returned doc ->
  (forall props, doc <> VObj props) ->
  forall field, In field metadataFields ->
    get server field = defaultValue filename dates field.
Proof.
  intros Hne Hdoc Hshape. apply no_field_defaults.
  intros field. unfold metadata.
  rewrite (readMetadata_decoded env contents doc Hne Hdoc).
  unfold orElse. destruct doc; try reflexivity;
    try (destruct (truthy _); reflexivity).
  now destruct (Hshape props).
Qed.

(** X7.  Whatever the metadata holds, the record's [tags] and [tools]
    are sequences, and its [name], [description], [longDescription],
    [status], [version], [author] and [license] are never falsy: a
    template never meets an empty or missing value there. *)
Theorem record_fields_are_never_empty :
  isArray (get server "tags") = true /\
  isArray (get server "tools") = true /\
  (forall field,
     In field ["name"; "description"; "longDescription"; "status";
               "version"; "author"; "license"] ->
     truthy (get server field) = true).
Proof.
  split; [|split].
  - field_of_record. destruct (isArray (get metadata "tags")) eqn:E; [exact E|].
    now destruct (truthy (get metadata "tags")).
  - field_of_record. reflexivity.
  - intros field Hin.
    repeat (destruct Hin as [<-|Hin];
            [field_of_record; apply truthy_orElse;
             first [reflexivity
                   | now destruct (basename env filePath ".cs")]|]).
    destruct Hin.
Qed.

(** X8.  The two derived defaults follow their source field: a record
    without a truthy [longDescription] in its metadata has its own
    [description] as [longDescription], and one without a truthy
    [createdDate] but with a truthy [lastUpdated] has that value as
    [createdDate]. *)
Theorem derived_fields_follow_their_source :
  (truthy (get metadata "longDescription") = false ->
   get server "longDescription" = get server "description") /\
  (truthy (get metadata "createdDate") = false ->
   truthy (get metadata "lastUpdated") = true ->
   get server "createdDate" = get server "lastUpdated").
Proof.
  split.
  - intros Hl. field_of_record. unfold orElse. rewrite Hl. cbv iota.
    now destruct (truthy (get metadata "description")).
  - intros Hc Hl. field_of_record. unfold orElse. rewrite Hc. cbv iota.
    now rewrite Hl.
Qed.

(** X9.  A file whose metadata sets [lastUpdated] to a truthy value gets
    the same record on every build date: neither reading of the clock
    reaches the record. *)
Theorem dated_record_ignores_build_date (dates' : string * string) :
  truthy (get metadata "lastUpdated") = true ->
  parseCSharpMcpServer env dates' contents filePath = server.
Proof.
  intros Hl. unfold server, parseCSharpMcpServer. fold metadata.
  unfold orElse. rewrite Hl.
  destruct (truthy (get metadata "createdDate")) eqn:Hc; cbv iota;
    rewrite ?Hc, ?Hl; reflexivity.
Qed.

End RecordFacts.

Lemma non_mapping_document_gives_defaults_witness :
  let e := Sample.env [] (Returned (VStr "just a sentence")) in
  let contents := Sample.withBlock "just a sentence" "class Body {}" in
  let server := parseCSharpMcpServer e Sample.midnight contents "mcp/one.cs" in
  get server "id" = VStr "one" /\ get server "description" = VStr "MCP Server".
Proof.
  intros e contents server.
  pose proof (non_mapping_document_gives_defaults e Sample.midnight contents
                "mcp/one.cs" (VStr "just a sentence")) as H.
  split.
  - apply (H ltac:(discriminate) eq_refl ltac:(discriminate) "id").
    simpl; tauto.
  - apply (H ltac:(discriminate) eq_refl ltac:(discriminate) "description").
    simpl; tauto.
Defined.

Lemma dated_record_ignores_build_date_witness :
  let e := Sample.env [] (Returned (VObj [("lastUpdated", VStr "2025-01-31")])) in
  let contents := Sample.withBlock "lastUpdated: 2025-01-31" "class Body {}" in
  parseCSharpMcpServer e ("2026-11-03", "2026-11-04") contents "mcp/one.cs"
  = parseCSharpMcpServer e ("2030-01-01", "2030-01-01") contents "mcp/one.cs".
Proof.
  intros e contents.
  apply (dated_record_ignores_build_date e ("2030-01-01", "2030-01-01")
           contents "mcp/one.cs" ("2026-11-03", "2026-11-04")).
  reflexivity.
Defined.

(** * Further properties of the front-matter span *)

Section Span.

Lemma frontMatterLoop_skip (before lines : list string) :
  (forall l, In l before -> isSentinelLine l = false) ->
  frontMatterLoop false (before ++ lines) = frontMatterLoop false lines.
Proof.
  induction before as [|l rest IH]; intros H; [reflexivity|].
  cbn [app frontMatterLoop].
  pose proof (H l (or_introl eq_refl)) as Hl. unfold isSentinelLine in Hl.
  rewrite Hl. cbn [andb]. apply IH. intros l' Hin. apply H. now right.
Qed.

Lemma afterFrontMatter_skip (before lines : list string) (found : bool) :
  (forall l, In l before -> isSentinelLine l = false) ->
  afterFrontMatter found (before ++ lines) = afterFrontMatter found lines.
Proof.
  induction before as [|l rest IH]; intros H; [reflexivity|].
  cbn [app afterFrontMatter].
  pose proof (H l (or_introl eq_refl)) as Hl. unfold isSentinelLine in Hl.
  rewrite Hl. apply IH. intros l' Hin. apply H. now right.
Qed.

(** Inside the block every comment line is collected, up to the closing
    sentinel or the end of the text. *)
Lemma frontMatterLoop_block (block tail : list string) :
  (forall l, In l block -> isSentinelLine l = false) ->
  frontMatterLoop true (block ++ tail)
  = commentLines block ++ frontMatterLoop true tail.
Proof.
  induction block as [|l rest IH]; intros H; [reflexivity|].
  cbn [app frontMatterLoop]. unfold commentLines. cbn [map filter].
  pose proof (H l (or_introl eq_refl)) as Hl. unfold isSentinelLine in Hl.
  rewrite Hl. cbn [andb].
  assert (Hrest : forall l', In l' rest -> isSentinelLine l' = false)
    by (intros l' Hin; apply H; now right).
  destruct (startsWith "//" (trim l)); cbn [map app];
    rewrite (IH Hrest); reflexivity.
Qed.

(** X10.  A file with an opening and a closing sentinel line: the
    metadata lines are the comment lines between the two, each with its
    marker removed; nothing before the opening or after the closing
    sentinel is metadata; and the display code is what follows the
    closing sentinel, trimmed and decoded.  The two scans of the text
    find the same span. *)
Theorem closed_block_splits_metadata_from_code
  (contents opening closing : string) (before block rest : list string) :
  splitLines contents = before ++ opening :: block ++ closing :: rest ->
  (forall l, In l (before ++ block) -> isSentinelLine l = false) ->
  isSentinelLine opening = true ->
  isSentinelLine closing = true ->
  frontMatterLines contents = commentLines block /\
  extractCodeWithoutFrontMatter contents
  = decodeEntities (trim (joinLines rest)).
Proof.
  intros Hlines Hfree Hopen Hclose.
  assert (Hb : forall l, In l before -> isSentinelLine l = false)
    by (intros l Hin; apply Hfree, in_or_app; now left).
  assert (Hk : forall l, In l block -> isSentinelLine l = false)
    by (intros l Hin; apply Hfree, in_or_app; now right).
  unfold isSentinelLine in Hopen, Hclose. split.
  - unfold frontMatterLines. rewrite Hlines, (frontMatterLoop_skip _ _ Hb).
    cbn [frontMatterLoop]. rewrite Hopen. cbn [negb].
    rewrite (frontMatterLoop_block _ _ Hk). cbn [frontMatterLoop].
    rewrite Hclose. cbn [negb]. apply app_nil_r.
  - unfold extractCodeWithoutFrontMatter.
    rewrite Hlines, (afterFrontMatter_skip _ _ _ Hb).
    cbn [afterFrontMatter]. rewrite Hopen. cbn [negb].
    rewrite (afterFrontMatter_skip _ _ _ Hk).
    cbn [afterFrontMatter]. rewrite Hclose. reflexivity.
Qed.

(** X11.  A file whose block is never closed: every comment line after
    the opening sentinel, down to the end of the text, is taken as
    metadata, while the display code is the whole text, the block
    included, trimmed and decoded. *)
Theorem unclosed_block_keeps_whole_text
  (contents opening : string) (before block : list string) :
  splitLines contents = before ++ opening :: block ->
  (forall l, In l (before ++ block) -> isSentinelLine l = false) ->
  isSentinelLine opening = true ->
  frontMatterLines contents = commentLines block /\
  extractCodeWithoutFrontMatter contents = decodeEntities (trim contents).
Proof.
  intros Hlines Hfree Hopen.
  assert (Hb : forall l, In l before -> isSentinelLine l = false)
    by (intros l Hin; apply Hfree, in_or_app; now left).
  assert (Hk : forall l, In l block -> isSentinelLine l = false)
    by (intros l Hin; apply Hfree, in_or_app; now right).
  unfold isSentinelLine in Hopen. split.
  - unfold frontMatterLines. rewrite Hlines, (frontMatterLoop_skip _ _ Hb).
    cbn [frontMatterLoop]. rewrite Hopen. cbn [negb].
    replace (frontMatterLoop true block)
      with (frontMatterLoop true (block ++ [])) by now rewrite app_nil_r.
    rewrite (frontMatterLoop_block _ _ Hk). apply app_nil_r.
  - unfold extractCodeWithoutFrontMatter.
    rewrite Hlines, (afterFrontMatter_skip _ _ _ Hb).
    cbn [afterFrontMatter]. rewrite Hopen. cbn [negb].
    now rewrite (afterFrontMatter_no_sentinel _ true Hk).
Qed.

End Span.

Lemma closed_block_splits_metadata_from_code_witness :
  frontMatterLines Sample.dateTimes
  = commentLines ["// id: date-times-mcp"; "// tags:"; "//   - datetime";
                  "//   - utilities"; "// status: stable"] /\
  extractCodeWithoutFrontMatter Sample.dateTimes
  = decodeEntities (trim (joinLines (skipn 7 (splitLines Sample.dateTimes)))).
Proof.
  apply (closed_block_splits_metadata_from_code Sample.dateTimes
           "// ---" "// ---" []
           ["// id: date-times-mcp"; "// tags:"; "//   - datetime";
            "//   - utilities"; "// status: stable"]
           (skipn 7 (splitLines Sample.dateTimes))).
  - reflexivity.
  - intros l Hin. cbn [app] in Hin.
    repeat (destruct Hin as [<-|Hin]; [reflexivity|]). destruct Hin.
  - reflexivity.
  - reflexivity.
Defined.

Lemma unclosed_block_keeps_whole_text_witness :
  let contents := joinLines ["using System;"; "// ---"; "// id: open";
                             "class Body {}"; "// the end"] in
  frontMatterLines contents = [" id: open"; " the end"] /\
  extractCodeWithoutFrontMatter contents = contents.
Proof.
  intros contents.
  destruct (unclosed_block_keeps_whole_text contents "// ---"
              ["using System;"] ["// id: open"; "class Body {}"; "// the end"])
    as [Hfm Hcode].
  - reflexivity.
  - intros l Hin. cbn [app] in Hin.
    repeat (destruct Hin as [<-|Hin]; [reflexivity|]). destruct Hin.
  - reflexivity.
  - split; [exact Hfm|exact Hcode].
Defined.

(** * Further properties of the line scanners *)

Section Trimmed.

Lemma frontMatterLoop_trimmed (lines : list string) : forall lines' inside,
  map trim lines = map trim lines' ->
  frontMatterLoop inside lines = frontMatterLoop inside lines'.
Proof.
  induction lines as [|l rest IH]; intros [|l' rest'] inside H;
    try discriminate; [reflexivity|].
  cbn [map] in H. injection H as Hl Hrest.
  cbn [frontMatterLoop]. rewrite <- Hl.
  destruct (String.eqb (trim l) sentinel).
  - destruct (negb inside); [now apply IH|reflexivity].
  - destruct (inside && startsWith "//" (trim l));
      [f_equal|]; now apply IH.
Qed.

Lemma findMethod_trimmed (window : list string) : forall window',
  map trim window = map trim window' ->
  findMethod window = findMethod window'.
Proof.
  induction window as [|l rest IH]; intros [|l' rest'] H;
    try discriminate; [reflexivity|].
  cbn [map] in H. injection H as Hl Hrest.
  cbn [findMethod]. unfold methodName. rewrite <- Hl.
  now rewrite (IH rest' Hrest).
Qed.

Lemma scanTools_trimmed (lines : list string) : forall lines',
  map trim lines = map trim lines' -> scanTools lines = scanTools lines'.
Proof.
  induction lines as [|l rest IH]; intros [|l' rest'] H;
    try discriminate; [reflexivity|].
  cbn [map] in H. injection H as Hl Hrest.
  cbn [scanTools]. rewrite (IH rest' Hrest). f_equal.
  unfold toolsAt. rewrite <- Hl.
  rewrite (findMethod_trimmed (firstn 9 rest) (firstn 9 rest'));
    [reflexivity|].
  now rewrite <- !firstn_map, Hrest.
Qed.

(** X12.  Metadata and tools are read from the trimmed lines only: two
    texts whose lines agree after trimming (other indentation, trailing
    blanks, CR LF line ends) give the same metadata lines and the same
    tools. *)
Theorem scanners_see_trimmed_lines_only (contents contents' : string) :
  map trim (splitLines contents) = map trim (splitLines contents') ->
  frontMatterLines contents = frontMatterLines contents' /\
  extractToolsFromCSharp contents = extractToolsFromCSharp contents'.
Proof.
  intros H. split.
  - now apply frontMatterLoop_trimmed.
  - now apply scanTools_trimmed.
Qed.

End Trimmed.

Lemma scanners_see_trimmed_lines_only_witness :
  frontMatterLines (Sample.withCarriageReturns Sample.dateTimes)
  = frontMatterLines Sample.dateTimes /\
  extractToolsFromCSharp (Sample.withCarriageReturns Sample.dateTimes)
  = extractToolsFromCSharp Sample.dateTimes.
Proof.
  apply (scanners_see_trimmed_lines_only
           (Sample.withCarriageReturns Sample.dateTimes) Sample.dateTimes).
  vm_compute. reflexivity.
Defined.

(** * Further properties of the tool scanner *)

Section Tools.

Lemma span_forallChars (f : ascii -> bool) (s : string) :
  forallChars f (fst (span f s)) = true.
Proof.
  induction s as [|c s IH]; [reflexivity|].
  simpl. destruct (f c) eqn:E; [|reflexivity].
  destruct (span f s) as [a b]. simpl in *. now rewrite E.
Qed.

Lemma forallChars_lacks (c : ascii) (s : string) :
  forallChars (fun a => negb (Ascii.eqb a c)) s = lacks c s.
Proof. induction s as [|a s IH]; [reflexivity|]. simpl. now rewrite IH. Qed.

Lemma isEmpty_false (s : string) : isEmpty s = false -> s <> "".
Proof. destruct s; [discriminate|discriminate]. Qed.

Lemma descriptionAt_shape (s d : string) :
  descriptionAt s = Some d -> d <> "" /\ lacks dquote d = true.
Proof.
  unfold descriptionAt.
  destruct (stripPrefix _ s) as [r|]; [|discriminate].
  pose proof (span_forallChars (fun c => negb (Ascii.eqb c dquote)) r) as Hs.
  destruct (span _ r) as [d' r']. cbn [fst] in Hs.
  destruct (isEmpty d') eqn:E; [discriminate|].
  destruct (startsWith _ r'); [|discriminate].
  intros H; inversion H; subst.
  split; [now apply isEmpty_false|now rewrite <- forallChars_lacks].
Qed.

Lemma matchDescription_shape (s : string) : forall d,
  matchDescription s = Some d -> d <> "" /\ lacks dquote d = true.
Proof.
  induction s as [|c s IH]; intros d; cbn [matchDescription].
  - destruct (descriptionAt "") eqn:E; [|discriminate].
    intros H; inversion H; subst. now apply (descriptionAt_shape "").
  - destruct (descriptionAt (String c s)) eqn:E.
    + intros H; inversion H; subst. now apply (descriptionAt_shape _ _ E).
    + apply IH.
Qed.

Lemma methodAt_shape (s m : string) :
  methodAt s = Some m -> m <> "" /\ forallChars isWordChar m = true.
Proof.
  unfold methodAt.
  destruct (stripPrefix _ s) as [r0|]; [|discriminate].
  destruct (span isWhiteSpace r0) as [w1 r1].
  destruct (span isWordChar r1) as [ty r2].
  destruct (span isWhiteSpace r2) as [w2 r3].
  pose proof (span_forallChars isWordChar r3) as Hs.
  destruct (span isWordChar r3) as [nm r4]. cbn [fst] in Hs.
  destruct (span isWhiteSpace r4) as [w3 r5].
  destruct (isEmpty w1), (isEmpty ty), (isEmpty w2); try discriminate.
  destruct (isEmpty nm) eqn:E; [discriminate|]. cbn [orb].
  destruct (startsWith "(" r5); [|discriminate].
  intros H; inversion H; subst. split; [now apply isEmpty_false|exact Hs].
Qed.

Lemma matchMethod_shape (s : string) : forall m,
  matchMethod s = Some m -> m <> "" /\ forallChars isWordChar m = true.
Proof.
  induction s as [|c s IH]; intros m; cbn [matchMethod].
  - destruct (methodAt "") eqn:E; [|discriminate].
    intros H; inversion H; subst. now apply (methodAt_shape "").
  - destruct (methodAt (String c s)) eqn:E.
    + intros H; inversion H; subst. now apply (methodAt_shape _ _ E).
    + apply IH.
Qed.

Lemma findMethod_shape (window : list string) : forall m,
  findMethod window = Some m -> m <> "" /\ forallChars isWordChar m = true.
Proof.
  induction window as [|l rest IH]; intros m; [discriminate|].
  cbn [findMethod]. destruct (methodName l) as [m'|] eqn:E; [|apply IH].
  intros H; inversion H; subst. unfold methodName in E.
  destruct (_ && _) in E; [|discriminate].
  now apply (matchMethod_shape _ _ E).
Qed.

(** What one line emits: at most one tool, and only at an attribute
    line. *)
Lemma toolsAt_length (l : string) (following : list string) :
  List.length (toolsAt l following)
  <= if isToolAttributeLine l then 1 else 0.
Proof.
  unfold toolsAt, isToolAttributeLine.
  destruct (_ && _); [|simpl; lia].
  destruct (matchDescription (trim l)); [|simpl; lia].
  destruct (findMethod _); simpl; lia.
Qed.

(** X13.  Every tool the scanner emits is well formed: its name is a
    non-empty run of letters, digits and underscores, and its description
    is non-empty and holds no double quote. *)
Theorem emitted_tools_are_well_formed (contents : string) (t : tool) :
  In t (extractToolsFromCSharp contents) ->
  name t <> "" /\ forallChars isWordChar (name t) = true /\
  description t <> "" /\ lacks dquote (description t) = true.
Proof.
  unfold extractToolsFromCSharp. generalize (splitLines contents).
  intros lines. induction lines as [|l rest IH]; intros Hin; [destruct Hin|].
  cbn [scanTools] in Hin. apply in_app_or in Hin.
  destruct Hin as [Hin|Hin]; [|now apply IH].
  unfold toolsAt in Hin.
  destruct (_ && _) in Hin; [|destruct Hin].
  destruct (matchDescription (trim l)) as [d|] eqn:Ed; [|destruct Hin].
  destruct (findMethod (firstn 9 rest)) as [m|] eqn:Em; [|destruct Hin].
  destruct Hin as [<-|[]]. cbn [name description].
  destruct (findMethod_shape _ _ Em). destruct (matchDescription_shape _ _ Ed).
  auto.
Qed.

(** X14.  The scanner's output is what its outer loop emits line by
    line; an attribute line emits at most one tool and every other line
    emits none; so the number of tools never exceeds the number of lines
    that carry the marker and a description call. *)
Theorem tools_bounded_by_attribute_lines (contents : string) :
  let lines := splitLines contents in
  extractToolsFromCSharp contents
  = flat_map (emittedAt lines) (seq 0 (List.length lines)) /\
  (forall i l, nth_error lines i = Some l ->
     List.length (emittedAt lines i) <= 1 /\
     (isToolAttributeLine l = false -> emittedAt lines i = [])) /\
  List.length (extractToolsFromCSharp contents)
  <= List.length (filter isToolAttributeLine lines).
Proof.
  intros lines. split; [apply extractTools_emitted|]. split.
  - intros i l Hl. unfold emittedAt. rewrite Hl.
    pose proof (toolsAt_length l (skipn (S i) lines)) as Hlen.
    destruct (isToolAttributeLine l).
    + split; [exact Hlen|discriminate].
    + split; [lia|]. intros _.
      destruct (toolsAt l (skipn (S i) lines)); [reflexivity|].
      simpl in Hlen. lia.
  - unfold extractToolsFromCSharp. subst lines.
    generalize (splitLines contents).
    intros lines. induction lines as [|l rest IH]; [simpl; lia|].
    cbn [scanTools filter]. rewrite length_app.
    pose proof (toolsAt_length l rest) as Hl.
    destruct (isToolAttributeLine l); simpl in *; lia.
Qed.

End Tools.

Lemma emitted_tools_are_well_formed_witness :
  let t := {| name := "GetCurrentDateTime";
              description := "Gets current date and time in various formats" |} in
  name t <> "" /\ forallChars isWordChar (name t) = true /\
  description t <> "" /\ lacks dquote (description t) = true.
Proof.
  intros t.
  apply (emitted_tools_are_well_formed Sample.dateTimes t).
  rewrite tools_of_dateTimes. left. reflexivity.
Defined.

(** * Further properties of the entity decoding *)

Section Decoding.

Lemma lacks_excludes (c : ascii) (p s : string) :
  lacks c s = true -> includes (String c p) s = false.
Proof.
  induction s as [|a s IH]; intros H; [reflexivity|].
  simpl in H. apply andb_prop in H. destruct H as [Ha Hs].
  cbn [includes]. rewrite startsWith_cons, (IH Hs).
  rewrite Ascii.eqb_sym. apply negb_true_iff in Ha. now rewrite Ha.
Qed.

(** X15.  Every entity begins with an ampersand, so a text without an
    ampersand is displayed as it is: decoding changes nothing. *)
Theorem decoding_keeps_text_without_ampersand (code : string) :
  lacks "&" code = true -> decodeEntities code = code.
Proof.
  intros H. apply decodeEntities_fixes_entityFree.
  unfold entityFree, entities, forallb.
  now rewrite !(lacks_excludes "&" _ code H).
Qed.

(** One replacement of an entity by a character either finds nothing and
    leaves the text as it is, or makes it strictly shorter. *)
Lemma replaceLoop_same_or_shorter (pat : string) (c : ascii) (n : nat) :
  2 <= String.length pat ->
  forall s,
    replaceLoop n pat (single c) s = s \/
    String.length (replaceLoop n pat (single c) s) < String.length s.
Proof.
  intros Hpat. induction n as [|n IH]; intros s; [now left|].
  destruct s as [|a s]; [now left|]. cbn [replaceLoop].
  destruct (stripPrefix pat (String a s)) as [rest|] eqn:E.
  - right. apply stripPrefix_length in E. cbn [append single String.length] in *.
    destruct (IH rest) as [-> | Hlt]; lia.
  - destruct (IH s) as [-> | Hlt]; [now left|right]. simpl. lia.
Qed.

Lemma replaceAll_same_or_shorter (pat : string) (c : ascii) (s : string) :
  2 <= String.length pat ->
  replaceAll pat (single c) s = s \/
  String.length (replaceAll pat (single c) s) < String.length s.
Proof. intros H. now apply replaceLoop_same_or_shorter. Qed.

(** X16.  Decoding never lengthens the text, and whenever it changes
    the text it makes it strictly shorter. *)
Theorem decoding_shortens_or_keeps (code : string) :
  String.length (decodeEntities code) <= String.length code /\
  (decodeEntities code <> code ->
   String.length (decodeEntities code) < String.length code).
Proof.
  assert (H : decodeEntities code = code \/
              String.length (decodeEntities code) < String.length code).
  { unfold decodeEntities.
    destruct (replaceAll_same_or_shorter "&quot;" dquote code) as [E1|E1];
      [simpl; lia| |].
    all: destruct (replaceAll_same_or_shorter "&#39;" squote
                     (replaceAll "&quot;" (single dquote) code)) as [E2|E2];
      [simpl; lia| |].
    all: destruct (replaceAll_same_or_shorter "&lt;" "<"
                     (replaceAll "&#39;" (single squote)
                        (replaceAll "&quot;" (single dquote) code)))
      as [E3|E3]; [simpl; lia| |].
    all: destruct (replaceAll_same_or_shorter "&gt;" ">"
                     (replaceAll "&lt;" "<"
                        (replaceAll "&#39;" (single squote)
                           (replaceAll "&quot;" (single dquote) code))))
      as [E4|E4]; [simpl; lia| |].
    all: destruct (replaceAll_same_or_shorter "&amp;" "&"
                     (replaceAll "&gt;" ">"
                        (replaceAll "&lt;" "<"
                           (replaceAll "&#39;" (single squote)
                              (replaceAll "&quot;" (single dquote) code)))))
      as [E5|E5]; [simpl; lia| |].
    all: change (single "<") with "<" in *; change (single ">") with ">" in *;
      change (single "&") with "&" in *.
    all: first [ left; congruence
               | right;
                 repeat match goal with
                        | E : _ = _ |- _ => rewrite E in *; clear E
                        end; lia ]. }
  destruct H as [-> | Hlt]; split; try lia; intros Hne; congruence.
Qed.

End Decoding.

Lemma decoding_keeps_text_without_ampersand_witness :
  decodeEntities "if (a < b) return x > 0 ? y : z;"
  = "if (a < b) return x > 0 ? y : z;".
Proof.
  apply decoding_keeps_text_without_ampersand. reflexivity.
Defined.

(** * Further properties of the catalog's keys *)

Section Keys.

Variable env : Env.

(** X17.  A file without any sentinel line is catalogued under its file
    name: its record has the file name without the extension as [id] and
    with it as [name], and one step of the scan stores it under that
    name. *)
Theorem file_without_front_matter_keyed_by_name
  (i : nat) (file contents : string) (store : obj) :
  readFileSync env (join env (mcpDir env) file) = Returned contents ->
  (forall l, In l (splitLines contents) -> isSentinelLine l = false) ->
  let stem := basename env (join env (mcpDir env) file) ".cs" in
  stem <> "__proto__" ->
  exists record,
    lookup stem (fst (loadFile env i file store)) = Some record /\
    get record "id" = VStr stem /\
    get record "name" = VStr (stem ++ ".cs").
Proof.
  intros Hread Hfree stem Hproto.
  set (record := parseCSharpMcpServer env (today env i) contents
                   (join env (mcpDir env) file)).
  assert (Hfields : forall field, In field metadataFields ->
            get record field = defaultValue stem (today env i) field).
  { apply empty_metadata_defaults, readMetadata_no_block.
    now apply frontMatterLoop_no_sentinel. }
  assert (Hid : get record "id" = VStr stem)
    by (apply (Hfields "id"); simpl; tauto).
  exists record. split; [|split].
  - unfold loadFile, bind, call, assign. rewrite Hread. cbn [fst].
    fold record. rewrite Hid. cbn [toString].
    apply String.eqb_neq in Hproto. rewrite Hproto.
    apply lookup_setProp_same.
  - exact Hid.
  - apply (Hfields "name"). simpl; tauto.
Qed.

(** A key that is new and no array index goes to the end. *)
Lemma setProp_appends (o : obj) (k : string) (v : value) :
  ~ In k (map fst o) -> arrayIndex k = None ->
  setProp o k v = o ++ [(k, v)].
Proof.
  intros Hnew Hidx. unfold setProp, hasProp.
  now rewrite (lookup_not_in k o Hnew), Hidx.
Qed.

Lemma loadFiles_keys_in_order (files : list string) : forall i store,
  NoDup (map fst store ++ map toString (scanIds env i files)) ->
  (forall id, In id (scanIds env i files) ->
     arrayIndex (toString id) = None /\ toString id <> "__proto__") ->
  map fst (fst (loadFiles env i files store))
  = map fst store ++ map toString (scanIds env i files).
Proof.
  induction files as [|f rest IH]; intros i store Hnd Hkeys.
  - cbn. now rewrite app_nil_r.
  - cbn [loadFiles scanIds] in *. unfold bind.
    unfold loadFile, bind, call, assign.
    destruct (readFileSync env (join env (mcpDir env) f)) as [c|e] eqn:E;
      [|cbn; now rewrite app_nil_r].
    set (r := parseCSharpMcpServer env (today env i) c
                (join env (mcpDir env) f)) in *.
    destruct (convertible (get r "id")) eqn:Econv;
      [|cbn; now rewrite app_nil_r].
    cbn [map] in Hnd |- *.
    destruct (Hkeys (get r "id") (or_introl eq_refl)) as [Hidx Hproto].
    apply String.eqb_neq in Hproto. rewrite Hproto.
    assert (Hnew : ~ In (toString (get r "id")) (map fst store)).
    { apply NoDup_remove_2 in Hnd. intros Hin. apply Hnd.
      apply in_or_app. now left. }
    rewrite (setProp_appends store (toString (get r "id")) r Hnew Hidx).
    rewrite IH.
    + rewrite map_app. cbn [map fst]. now rewrite <- app_assoc.
    + rewrite map_app. cbn [map fst]. now rewrite <- app_assoc.
    + intros id Hin. apply Hkeys. now right.
Qed.

(** X18.  Let the ids be those of the records the scan stores, file by
    file, up to the first file that cannot be read or whose id cannot be
    made a key.  When they are in the domain of the model (every number
    a safe integer), pairwise distinct as strings, and none of them is
    an array index or [__proto__], the keys of the mapping, and so the
    records of the list, come in the order in which the files were
    listed. *)
Theorem catalog_follows_listing_order (listed : list string) :
  readdirSync env (mcpDir env) = Returned listed ->
  let ids := scanIds env 0 (csFiles env listed) in
  (forall id, In id ids -> keyDomain id = true) ->
  NoDup (map toString ids) ->
  (forall id, In id ids ->
     arrayIndex (toString id) = None /\ toString id <> "__proto__") ->
  exists serversData records,
    servers env = Returned serversData /\
    serversArray env = Returned records /\
    map fst serversData = map toString ids /\
    map idString records = map toString ids.
Proof.
  intros Hdir ids _ Hnd Hkeys.
  pose proof (servers_of_listing env listed Hdir) as Hs.
  pose proof (loadFiles_keys_in_order (csFiles env listed) 0 [] Hnd Hkeys)
    as Hk. cbn [map app] in Hk. fold ids in Hk.
  pose proof (loadFiles_scanned env (csFiles env listed) 0 []) as Hinv.
  set (serversData := fst (loadFiles env 0 (csFiles env listed) [])) in *.
  exists serversData, (toList serversData).
  split; [exact Hs|]. split; [|split].
  - unfold serversArray. now rewrite Hs.
  - exact Hk.
  - rewrite <- Hk. unfold toList. rewrite map_map.
    apply map_ext_in. intros [k r] Hin.
    destruct (Hinv ltac:(intros ? ? []) k r Hin)
      as [(dates & contents & filePath & ->) Hid].
    cbn [fst snd]. rewrite spread_parsed_record. exact Hid.
Qed.

End Keys.

Lemma file_without_front_matter_keyed_by_name_witness :
  let e := Sample.env [("plain.cs", Returned "class Plain {}")]
             (Thrown "not called") in
  exists record,
    lookup "plain" (fst (loadFile e 0 "plain.cs" [])) = Some record /\
    get record "id" = VStr "plain" /\
    get record "name" = VStr "plain.cs".
Proof.
  intros e.
  apply (file_without_front_matter_keyed_by_name e 0 "plain.cs"
           "class Plain {}" []).
  - reflexivity.
  - intros l [<-|[]]. reflexivity.
  - discriminate.
Defined.

Lemma catalog_follows_listing_order_witness :
  let e := Sample.env [("zeta.cs", Returned "class Z {}");
                       ("alpha.cs", Returned "class A {}");
                       ("mid.cs", Returned "class M {}")]
             (Thrown "not called") in
  exists serversData records,
    servers e = Returned serversData /\
    serversArray e = Returned records /\
    map fst serversData = ["zeta"; "alpha"; "mid"] /\
    map idString records = ["zeta"; "alpha"; "mid"].
Proof.
  intros e.
  assert (Hids : scanIds e 0 (csFiles e ["zeta.cs"; "alpha.cs"; "mid.cs"])
                 = [VStr "zeta"; VStr "alpha"; VStr "mid"])
    by reflexivity.
  pose proof (catalog_follows_listing_order e
                ["zeta.cs"; "alpha.cs"; "mid.cs"] eq_refl) as H.
  cbv zeta in H. rewrite Hids in H. apply H.
  - intros id Hin. simpl in Hin.
    repeat (destruct Hin as [<-|Hin]; [reflexivity|]). destruct Hin.
  - repeat constructor; simpl; intuition discriminate.
  - intros id Hin. simpl in Hin.
    repeat (destruct Hin as [<-|Hin]; [split; [reflexivity|discriminate]|]).
    destruct Hin.
Defined.
